(** * Obsidian agent skill: the vault registry and the command gate

    A shallow embedding of [scripts/vault_registry.py] and
    [scripts/obsidian_cli.py].  Python strings are [string]s (a sequence of
    code points below 256), dictionaries are association lists in insertion
    order, exceptions are values of [exn] carried by [res]. *)

From Stdlib Require Import List String Ascii ZArith Bool Arith Lia Floats.
From Stdlib Require Import DecimalString Sorted Permutation.
Import ListNotations.
Set Warnings "-register-all".
Set Warnings "-notation-overridden".
Set Warnings "-ambiguous-paths".
Open Scope string_scope.

(** ** Python strings *)

Module PyStr.

Definition chars (s : string) : list ascii := list_ascii_of_string s.
Definition str (l : list ascii) : string := string_of_list_ascii l.

(** [str.isspace] on the code points below 256. *)
Definition is_space (c : ascii) : bool :=
  let n := nat_of_ascii c in
  (Nat.leb 9 n && Nat.leb n 13) || (Nat.leb 28 n && Nat.leb n 32)
  || Nat.eqb n 133 || Nat.eqb n 160.

Fixpoint drop_while (p : ascii -> bool) (l : list ascii) : list ascii :=
  match l with
  | [] => []
  | c :: r => if p c then drop_while p r else l
  end.

Definition lstrip_l (p : ascii -> bool) (l : list ascii) : list ascii :=
  drop_while p l.
Definition rstrip_l (p : ascii -> bool) (l : list ascii) : list ascii :=
  rev (drop_while p (rev l)).
Definition strip_l (p : ascii -> bool) (l : list ascii) : list ascii :=
  rstrip_l p (lstrip_l p l).

(** [s.split(sep)] for a one-character separator: never empty. *)
Fixpoint split_l (sep : ascii) (l : list ascii) : list (list ascii) :=
  match l with
  | [] => [[]]
  | c :: r =>
      if Ascii.eqb c sep then [] :: split_l sep r
      else match split_l sep r with
           | h :: t => (c :: h) :: t
           | [] => [[c]]
           end
  end.

(** [sep.join(parts)] *)
Fixpoint join_l (sep : list ascii) (parts : list (list ascii)) : list ascii :=
  match parts with
  | [] => []
  | [p] => p
  | p :: rest => p ++ sep ++ join_l sep rest
  end.

(** [s.replace(a, b)] for one-character [a] and [b]. *)
Definition replace_l (a b : ascii) (l : list ascii) : list ascii :=
  map (fun c => if Ascii.eqb c a then b else c) l.

(** [s.strip()], [s.lstrip()] *)
Definition strip (s : string) : string := str (strip_l is_space (chars s)).
(** [s.strip(c)] for a one-character argument. *)
Definition strip_char (c : ascii) (s : string) : string :=
  str (strip_l (Ascii.eqb c) (chars s)).
Definition replace (a b : ascii) (s : string) : string :=
  str (replace_l a b (chars s)).
Definition split (sep : ascii) (s : string) : list string :=
  map str (split_l sep (chars s)).
Definition join (sep : string) (parts : list string) : string :=
  str (join_l (chars sep) (map chars parts)).

Definition startswith (s p : string) : bool := String.prefix p s.
Definition endswith (s p : string) : bool :=
  let n := String.length s in
  let k := String.length p in
  Nat.leb k n && String.eqb (String.substring (n - k) k s) p.

(** [x in {a, b, ...}] for strings. *)
Definition mem (x : string) (l : list string) : bool :=
  existsb (String.eqb x) l.

(** Truth value of a string: non-empty. *)
Definition truthy (s : string) : bool :=
  match s with EmptyString => false | _ => true end.

(** [a or b] on strings. *)
Definition or_else (a b : string) : string := if truthy a then a else b.

End PyStr.

(** ** Exceptions and results *)

(** The exception classes the two scripts meet.  [OSError] stands for its
    subclasses too ([FileNotFoundError], [PermissionError], ...);
    [JSONDecodeError] and [UnicodeDecodeError] are subclasses of
    [ValueError] in Python and kept apart here, since the scripts catch the
    first one only. *)
Inductive exn : Type :=
| ValueError (msg : string)
| TypeError (msg : string)
| RuntimeError (msg : string)
| OSError (msg : string)
| JSONDecodeError (msg : string)
| UnicodeDecodeError (msg : string)
| RecursionError (msg : string).

(** [except (OSError, json.JSONDecodeError)] *)
Definition is_os_or_json_error (e : exn) : bool :=
  match e with
  | OSError _ | JSONDecodeError _ => true
  | _ => false
  end.

(** [except json.JSONDecodeError] *)
Definition is_json_error (e : exn) : bool :=
  match e with
  | JSONDecodeError _ => true
  | _ => false
  end.

(** [except OSError] *)
Definition is_os_error (e : exn) : bool :=
  match e with
  | OSError _ => true
  | _ => false
  end.

Inductive res (A : Type) : Type :=
| Ok (a : A)
| Raise (e : exn).
Arguments Ok {A} a.
Arguments Raise {A} e.

Definition bind {A B : Type} (m : res A) (k : A -> res B) : res B :=
  match m with
  | Ok a => k a
  | Raise e => Raise e
  end.

Notation "x <- m ;; k" := (bind m (fun x => k))
  (at level 61, m at next level, right associativity).

(** ** vault_registry.py: working-directory normalisation *)

Module Workdir.
Import PyStr.

Definition slash : ascii := "/"%char.
Definition backslash : ascii := "\"%char.

(** [normalize_workdir] *)
Definition normalize_workdir (raw : string) : res string :=
  let value := strip raw in
  if mem value [""; "."; "./"] then Ok ""
  else
    let value := strip_char slash (replace backslash slash value) in
    let parts := filter (fun p => negb (mem p [""; "."])) (split slash value) in
    match parts with
    | [] => Ok ""
    | _ =>
        if existsb (fun part => String.eqb part "..") parts
        then Raise (ValueError "workdir must not contain '..'")
        else Ok (join "/" parts)
    end.

(** The path segments of a text, with both separators: what lies between
    two consecutive [/] or [\]. *)
Definition segments (s : string) : list string :=
  split slash (replace backslash slash s).

Definition has_dotdot_segment (s : string) : bool :=
  existsb (fun part => String.eqb part "..") (segments s).

(** A segment that names something: neither empty nor [.]. *)
Definition kept (p : string) : bool := negb (mem p [""; "."]).

Definition dotdot_error : exn := ValueError "workdir must not contain '..'".

(** The same on character lists. *)
Definition dd : list ascii := ["."%char; "."%char].
Definition segments_l (l : list ascii) : list (list ascii) :=
  split_l slash (replace_l backslash slash l).

End Workdir.

(** ** JSON values, as [json.loads] builds them *)

Module Json.

(** [None] and JSON [null] are the same Python value; a [dict] keeps its
    keys in insertion order. *)
Inductive json : Type :=
| JNull
| JBool (b : bool)
| JInt (z : Z)
| JFloat (f : float)
| JStr (s : string)
| JList (items : list json)
| JDict (d : list (string * json)).

Definition dict : Type := list (string * json).

(** Truth value of a Python object. *)
Definition truthy (v : json) : bool :=
  match v with
  | JNull => false
  | JBool b => b
  | JInt z => negb (Z.eqb z 0)
  | JFloat f => negb (PrimFloat.eqb f PrimFloat.zero)
  | JStr s => PyStr.truthy s
  | JList items => match items with [] => false | _ => true end
  | JDict d => match d with [] => false | _ => true end
  end.

(** [a or b] *)
Definition or_else (a b : json) : json := if truthy a then a else b.

(** [v is None] *)
Definition is_none (v : json) : bool :=
  match v with JNull => true | _ => false end.

Definition is_dict (v : json) : bool :=
  match v with JDict _ => true | _ => false end.
Definition is_str (v : json) : bool :=
  match v with JStr _ => true | _ => false end.

(** [k in d] *)
Definition dict_mem (k : string) (d : dict) : bool :=
  existsb (fun kv => String.eqb (fst kv) k) d.

(** [d[k]] when present *)
Fixpoint dict_find (k : string) (d : dict) : option json :=
  match d with
  | [] => None
  | (k', v) :: r => if String.eqb k' k then Some v else dict_find k r
  end.

(** [d.get(k)]: [None] when absent *)
Definition dict_get (k : string) (d : dict) : json :=
  match dict_find k d with Some v => v | None => JNull end.

(** [d.get(k, default)] *)
Definition dict_get_default (k : string) (default : json) (d : dict) : json :=
  match dict_find k d with Some v => v | None => default end.

(** [d[k] = v]: a key already there keeps its place. *)
Fixpoint dict_set (k : string) (v : json) (d : dict) : dict :=
  match d with
  | [] => [(k, v)]
  | (k', v') :: r =>
      if String.eqb k' k then (k', v) :: r else (k', v') :: dict_set k v r
  end.

(** [d.setdefault(k, v)] *)
Definition dict_setdefault (k : string) (v : json) (d : dict) : dict :=
  if dict_mem k d then d else dict_set k v d.

(** [d.pop(k)] for a key that is there *)
Definition dict_pop (k : string) (d : dict) : dict :=
  filter (fun kv => negb (String.eqb (fst kv) k)) d.

Definition dict_keys (d : dict) : list string := map fst d.
Definition dict_values (d : dict) : list json := map snd d.

(** *** Dicts with keys of any hashable type

    A dict that [json.loads] built has strings for keys.  A script that
    goes on assigning to it with keys taken from decoded values can add
    keys that are numbers, booleans or [None]; lists and dicts cannot be
    keys. *)





Definition pydict : Type := list (json * json).




(** A dict with string keys, taken as a dict with keys of any type. *)
Definition of_dict (d : dict) : pydict :=
  map (fun kv => (JStr (fst kv), snd kv)) d.



End Json.

(** ** pathlib paths (POSIX flavour), kept as their [str()] *)

Module PosixPath.
Import PyStr.

Definition slash : ascii := "/"%char.

(** The root of a path text: [//] for exactly two leading slashes. *)
Definition root_of (s : string) : string :=
  match chars s with
  | "/"%char :: "/"%char :: "/"%char :: _ => "/"
  | "/"%char :: "/"%char :: _ => "//"
  | "/"%char :: _ => "/"
  | _ => ""
  end.

(** The components after the root: empty and [.] components are dropped,
    [..] is kept. *)
Definition parts_of (s : string) : list string :=
  filter (fun x => negb (mem x [""; "."])) (split slash s).

Definition render (root : string) (parts : list string) : string :=
  match root, parts with
  | EmptyString, [] => "."
  | _, _ => root ++ join "/" parts
  end.

(** [str(Path(s))] *)
Definition path_str (s : string) : string := render (root_of s) (parts_of s).

(** [Path(s).name] *)
Definition path_name (s : string) : string := last (parts_of s) "".

(** [str(Path(a) / b)] *)
Definition joinpath (a b : string) : string :=
  if startswith b "/" then path_str b
  else if negb (truthy a) || endswith a "/" then path_str (a ++ b)
  else path_str (a ++ "/" ++ b).

(** [str(Path(s).expanduser())]; [home_of u] is the home directory of user
    [u], the current user for the empty name. *)
Definition expanduser (home_of : string -> option string) (s : string)
  : res string :=
  match root_of s, parts_of s with
  | EmptyString, String "~"%char user :: rest =>
      match home_of user with
      | Some home => Ok (render (root_of home) (parts_of home ++ rest))
      | None => Raise (RuntimeError "Could not determine home directory.")
      end
  | _, _ => Ok (path_str s)
  end.

(** [str(Path(s).resolve())] for an absolute path on a file system without
    symbolic links: [..] steps back, not above the root. *)
Definition collapse (parts : list string) : list string :=
  fold_left (fun acc p =>
               if String.eqb p ".." then removelast acc else (acc ++ [p])%list)
            parts [].
Definition resolve_lexical (s : string) : string :=
  render (root_of s) (collapse (parts_of s)).

End PosixPath.

(** ** The host: file system, environment, clock, decoder, child process *)

Record completed : Type := {
  returncode : Z;
  c_stdout : string;
  c_stderr : string
}.

Record host : Type := {
  (** [json.loads]: the decoded value, or the exception it raises:
      [JSONDecodeError] on text that is not JSON, [RecursionError] on text
      nested too deep, [ValueError] on an integer with too many digits *)
  json_loads : string -> res Json.json;
  (** [Path.exists], [Path.is_dir] *)
  path_exists : string -> bool;
  path_is_dir : string -> bool;
  (** [Path.read_text]: the text, or the exception it raises: an [OSError]
      when the file cannot be opened or read, [UnicodeDecodeError] when its
      bytes are not text in the encoding of the locale *)
  read_text : string -> res string;
  (** [str(Path(p).resolve())] *)
  resolve : string -> string;
  home_of : string -> option string;
  (** [sys.platform], [os.environ.get] *)
  platform : string;
  environ : string -> option string;
  (** [shutil.which] *)
  which : string -> option string;
  (** [subprocess.run(argv, capture_output=True, text=True, ...)]: the
      completed process, or the exception raised when none could be
      started ([PermissionError] on a file that is not executable or on a
      directory, both [OSError]s) *)
  subprocess_run : list string -> res completed;
  (** [utc_now_iso_z()] at the n-th reading of the clock *)
  utc_now_iso_z : nat -> string
}.

(** ** vault_registry.py: the registry document and its commands *)

Module Registry.
Import Json.
Export Workdir.

(** What a command leaves behind: its exit status, the document it handed
    to [save_registry] (if it got that far), and what it printed. *)
Record outcome : Type := {
  exit_code : Z;
  saved : option dict;
  out : list string;
  err : list string
}.

Definition fail (msg : string) : outcome :=
  {| exit_code := 1; saved := None; out := []; err := [msg] |}.
Definition done (registry : dict) (msg : string) (diag : list string) : outcome :=
  {| exit_code := 0; saved := Some registry; out := [msg]; err := diag |}.


(** A saved document is the loaded one with [vaults], [active] or both
    set anew. *)
Definition rewritten (registry r' : dict) : Prop :=
  exists vaults,
    r' = dict_set "vaults" (JDict vaults) registry
    \/ (exists active,
          r' = dict_set "active" (JStr active)
                 (dict_set "vaults" (JDict vaults) registry))
    \/ exists active, r' = dict_set "active" (JStr active) registry.

Definition empty_registry : dict :=
  [("schema_version", JInt 1); ("vaults", JDict []); ("active", JStr "")].

(** A discovered vault, as [discover_vaults] builds it; [N] is the type of
    its name, [str] by the annotation of the source. *)
Record entry (N : Type) : Type := {
  e_name : N;
  e_path : string;
  e_source : string
}.
Arguments e_name {N} _.
Arguments e_path {N} _.
Arguments e_source {N} _.

Record add_args : Type := {
  add_name : string;
  add_path : string;
  add_workdir : string;
  add_allow_missing_workdir : bool;
  add_source : string;
  add_force : bool;
  add_allow_missing : bool;
  add_set_active : bool
}.

Record set_workdir_args : Type := {
  sw_name : string;
  sw_workdir : string;
  sw_allow_missing_workdir : bool
}.

(** [vaults[name] = {"path": .., "workdir": .., "source": .., "updated_at": ..}] *)
Definition vault_record (path workdir source updated_at : string) : json :=
  JDict [("path", JStr path); ("workdir", JStr workdir);
         ("source", JStr source); ("updated_at", JStr updated_at)].

(** The invariant of the document: an [active] that is not empty names a
    key of [vaults]. *)
Definition active_ok (registry : dict) : bool :=
  match dict_get "active" registry with
  | JStr active =>
      negb (PyStr.truthy active)
      || match dict_get "vaults" registry with
         | JDict vaults => dict_mem active vaults
         | _ => false
         end
  | _ => true
  end.

Section WithHost.
Variable h : host.

(** [load_registry]; an exception of [read_text] or [json.loads] that is
    neither an [OSError] nor a [JSONDecodeError] is not caught. *)
Definition load_registry (path : string) : res dict :=
  if negb (path_exists h path) then Ok empty_registry
  else
    match read_text h path with
    | Raise e => if is_os_or_json_error e then Ok empty_registry else Raise e
    | Ok text =>
        match json_loads h text with
        | Raise e =>
            if is_os_or_json_error e then Ok empty_registry else Raise e
        | Ok (JDict data) =>
            let data := dict_setdefault "schema_version" (JInt 1) data in
            let data := dict_setdefault "vaults" (JDict []) data in
            let data := dict_setdefault "active" (JStr "") data in
            let data :=
              if negb (is_dict (dict_get "vaults" data))
              then dict_set "vaults" (JDict []) data else data in
            let data :=
              if negb (is_str (dict_get "active" data))
              then dict_set "active" (JStr "") data else data in
            Ok data
        | Ok _ => Ok empty_registry
        end
    end.

(** [registry.get("vaults", {})]; [load_registry] leaves a dict there. *)
Definition vaults_of (registry : dict) : dict :=
  match dict_get_default "vaults" (JDict []) registry with
  | JDict vaults => vaults
  | _ => []
  end.

(** [is_vault_root] *)
Definition is_vault_root (path : string) : bool :=
  path_exists h path && path_is_dir h path
  && path_exists h (PosixPath.joinpath path ".obsidian").

(** [resolve_workdir_abs] *)
Definition resolve_workdir_abs (vault_root workdir : string) : string :=
  if negb (PyStr.truthy workdir) then vault_root
  else PosixPath.joinpath vault_root workdir.

(** [Path(p).expanduser().resolve()] *)
Definition expand_resolve (p : string) : res string :=
  expanded <- PosixPath.expanduser (home_of h) p ;;
  Ok (resolve h expanded).

(** [cmd_add], on the document [load_registry] returned; [now] is the
    clock reading taken for [updated_at]. *)
Definition cmd_add (registry : dict) (now : nat) (args : add_args)
  : res outcome :=
  let vaults := vaults_of registry in
  vault_path <- expand_resolve (add_path args) ;;
  if negb (add_allow_missing args) && negb (is_vault_root vault_path)
  then Ok (fail ("Not a vault root (missing .obsidian): " ++ vault_path))
  else
    let name := PyStr.or_else (add_name args) (PosixPath.path_name vault_path) in
    if dict_mem name vaults && negb (add_force args)
    then Ok (fail ("Vault name already exists: " ++ name))
    else
      match normalize_workdir (add_workdir args) with
      | Raise (ValueError msg) => Ok (fail ("Invalid --workdir: " ++ msg))
      | Raise e => Raise e
      | Ok workdir =>
          let workdir_abs := resolve_workdir_abs vault_path workdir in
          if PyStr.truthy workdir && negb (path_exists h workdir_abs)
             && negb (add_allow_missing_workdir args)
          then Ok (fail ("Working dir does not exist: " ++ workdir_abs))
          else if PyStr.truthy workdir && path_exists h workdir_abs
                  && negb (path_is_dir h workdir_abs)
          then Ok (fail ("Working dir is not a directory: " ++ workdir_abs))
          else
            let vaults :=
              dict_set name
                (vault_record vault_path workdir
                   (PyStr.or_else (add_source args) "manual")
                   (utc_now_iso_z h now)) vaults in
            let registry := dict_set "vaults" (JDict vaults) registry in
            let registry :=
              if add_set_active args
              then dict_set "active" (JStr name) registry else registry in
            Ok (done registry ("Registered " ++ name ++ " -> " ++ vault_path) [])
      end.

(** [cmd_remove] *)
Definition cmd_remove (registry : dict) (name : string) : outcome :=
  let vaults := vaults_of registry in
  if negb (dict_mem name vaults)
  then fail ("Unknown vault name: " ++ name)
  else
    let vaults := dict_pop name vaults in
    let registry := dict_set "vaults" (JDict vaults) registry in
    let registry :=
      match dict_get "active" registry with
      | JStr active =>
          if String.eqb active name
          then dict_set "active" (JStr "") registry else registry
      | _ => registry
      end in
    done registry ("Removed " ++ name) [].

(** [cmd_set_active] *)
Definition cmd_set_active (registry : dict) (name : string) : outcome :=
  let vaults := vaults_of registry in
  if negb (dict_mem name vaults)
  then fail ("Unknown vault name: " ++ name)
  else
    let registry := dict_set "active" (JStr name) registry in
    done registry ("Active vault set to " ++ name) [].

(** [cmd_set_workdir] *)
Definition cmd_set_workdir (registry : dict) (now : nat)
    (args : set_workdir_args) : res outcome :=
  let vaults := vaults_of registry in
  match or_else (JStr (sw_name args))
                (dict_get_default "active" (JStr "") registry) with
  | JStr name =>
      if negb (PyStr.truthy name)
      then Ok (fail "No vault specified and no active vault set.")
      else if negb (dict_mem name vaults)
      then Ok (fail ("Unknown vault name: " ++ name))
      else
        let info :=
          match dict_get_default name (JDict []) vaults with
          | JDict info => info
          | _ => []
          end in
        match dict_get_default "path" (JStr "") info with
        | JStr vault_path_str =>
            if negb (PyStr.truthy vault_path_str)
            then Ok (fail ("Vault path missing for " ++ name))
            else
              match normalize_workdir (sw_workdir args) with
              | Raise (ValueError msg) => Ok (fail ("Invalid --workdir: " ++ msg))
              | Raise e => Raise e
              | Ok workdir =>
                  vault_path <- expand_resolve vault_path_str ;;
                  let workdir_abs := resolve_workdir_abs vault_path workdir in
                  if PyStr.truthy workdir && negb (path_exists h workdir_abs)
                     && negb (sw_allow_missing_workdir args)
                  then Ok (fail ("Working dir does not exist: " ++ workdir_abs))
                  else if path_exists h workdir_abs
                          && negb (path_is_dir h workdir_abs)
                  then Ok (fail ("Working dir is not a directory: " ++ workdir_abs))
                  else
                    let info := dict_set "workdir" (JStr workdir) info in
                    let info :=
                      dict_set "updated_at" (JStr (utc_now_iso_z h now)) info in
                    let vaults := dict_set name (JDict info) vaults in
                    let registry := dict_set "vaults" (JDict vaults) registry in
                    Ok (done registry
                          ("Working dir set for " ++ name ++ ": "
                           ++ PyStr.or_else workdir ".") [])
              end
        | _ => Ok (fail ("Vault path missing for " ++ name))
        end
  | _ => Ok (fail "No vault specified and no active vault set.")
  end.

End WithHost.
End Registry.

(** ** vault_registry.py: discovery and merge *)

Module Discovery.
Import Json.
Export Registry.

(** What one candidate object contributes to the generator
    [extract_vault_entries]: nothing, one pair, or the [TypeError] of
    [Path(path)] on a path that is not a string.  A consumer stops at the
    first [Raise]. *)
Definition entry_of_item (item : json) : list (res (json * json)) :=
  match item with
  | JDict value =>
      let path := dict_get "path" value in
      let name := or_else (dict_get "name" value) (dict_get "label" value) in
      if truthy path then
        if truthy name then [Ok (name, path)]
        else
          match path with
          | JStr p => [Ok (JStr (PosixPath.path_name p), path)]
          | _ => [Raise (TypeError "expected str, bytes or os.PathLike object")]
          end
      else []
  | _ => []
  end.

(** [extract_vault_entries] *)
Definition extract_vault_entries (data : json) : list (res (json * json)) :=
  match data with
  | JDict d =>
      let vaults := dict_get "vaults" d in
      let vaults :=
        match vaults with
        | JNull =>
            let values := dict_values d in
            if truthy (JList values)
               && forallb (fun value =>
                    match value with
                    | JDict v => dict_mem "path" v
                    | _ => false
                    end) values
            then data else vaults
        | _ => vaults
        end in
      match vaults with
      | JDict vd => flat_map entry_of_item (dict_values vd)
      | JList items => flat_map entry_of_item items
      | _ => []
      end
  | JList items => flat_map entry_of_item items
  | _ => []
  end.

Record merge_args : Type := {
  m_force : bool
}.


(** The state of the scan: the paths seen are those of the results, no
    path occurs twice, and every source is one of [files]. *)
Definition scan_inv (files : list string)
    (st : list (entry json) * list string) : Prop :=
  NoDup (map e_path (fst st))
  /\ (forall p, In p (snd st) <-> In p (map e_path (fst st)))
  /\ (forall e, In e (fst st) -> In (e_source e) files).


Section WithHost.
Variable h : host.

(** [candidate_config_dirs] *)
Definition candidate_config_dirs : res (list string) :=
  if PyStr.startswith (platform h) "darwin" then
    d <- PosixPath.expanduser (home_of h)
           "~/Library/Application Support/Obsidian" ;;
    Ok [d]
  else if PyStr.startswith (platform h) "win" then
    let dirs :=
      match environ h "APPDATA" with
      | Some appdata =>
          if PyStr.truthy appdata
          then [PosixPath.joinpath appdata "Obsidian"] else []
      | None => []
      end in
    let dirs :=
      match environ h "LOCALAPPDATA" with
      | Some localappdata =>
          if PyStr.truthy localappdata
          then (dirs ++ [PosixPath.joinpath localappdata "Obsidian"])%list
          else dirs
      | None => dirs
      end in
    Ok dirs
  else
    d1 <- PosixPath.expanduser (home_of h) "~/.config/obsidian" ;;
    d2 <- PosixPath.expanduser (home_of h) "~/.config/Obsidian" ;;
    Ok [d1; d2].

(** [candidate_config_files] *)
Definition candidate_config_files (explicit : string) : res (list string) :=
  if PyStr.truthy explicit then
    f <- PosixPath.expanduser (home_of h) explicit ;;
    Ok [f]
  else
    dirs <- candidate_config_dirs ;;
    Ok (flat_map (fun base =>
                    [PosixPath.joinpath base "vaults.json";
                     PosixPath.joinpath base "obsidian.json"]) dirs).

(** The inner loop of [discover_vaults] over what one file yields;
    the state is [results] and [seen_paths]. *)
Fixpoint scan_entries (source : string) (yielded : list (res (json * json)))
    (st : list (entry json) * list string)
  : res (list (entry json) * list string) :=
  match yielded with
  | [] => Ok st
  | Raise e :: _ => Raise e
  | Ok (name, vault_path) :: rest =>
      match vault_path with
      | JStr p =>
          resolved <- PosixPath.expanduser (home_of h) p ;;
          if PyStr.mem resolved (snd st) then scan_entries source rest st
          else
            scan_entries source rest
              ((fst st ++ [{| e_name := name; e_path := resolved;
                              e_source := source |}])%list,
               resolved :: snd st)
      | _ => Raise (TypeError "expected str, bytes or os.PathLike object")
      end
  end.

(** The outer loop of [discover_vaults] over the candidate files; an
    exception of [read_text] or [json.loads] that is neither an [OSError]
    nor a [JSONDecodeError] ends the scan. *)
Fixpoint scan_files (files : list string)
    (st : list (entry json) * list string)
  : res (list (entry json) * list string) :=
  match files with
  | [] => Ok st
  | path :: rest =>
      if negb (path_exists h path) then scan_files rest st
      else
        match read_text h path with
        | Raise e =>
            if is_os_or_json_error e then scan_files rest st else Raise e
        | Ok text =>
            match json_loads h text with
            | Raise e =>
                if is_os_or_json_error e then scan_files rest st else Raise e
            | Ok data =>
                st' <- scan_entries path (extract_vault_entries data) st ;;
                scan_files rest st'
            end
        end
  end.

(** [discover_vaults], from the candidate files on *)
Definition discover_in (files : list string) : res (list (entry json)) :=
  st <- scan_files files ([], []) ;;
  Ok (fst st).

(** [discover_vaults] *)
Definition discover_vaults (config_path : string) : res (list (entry json)) :=
  files <- candidate_config_files config_path ;;
  discover_in files.

(** [str(vaults[name].get("workdir", "") or "")]; [py_str] is [str()] on
    the values that are not strings. *)
Definition existing_workdir (py_str : json -> string) (name : string)
    (vaults : dict) : string :=
  match dict_find name vaults with
  | Some (JDict existing) =>
      match or_else (dict_get_default "workdir" (JStr "") existing) (JStr "") with
      | JStr w => w
      | v => py_str v
      end
  | _ => ""
  end.

Definition skip_message (name : string) : string :=
  "Skip " ++ name ++ "; already registered".

(** [existing.get("path") if isinstance(existing, dict) else None] for
    [existing = vaults[name]] *)
Definition existing_path (name : string) (vaults : dict) : json :=
  match dict_get name vaults with
  | JDict existing => dict_get "path" existing
  | _ => JNull
  end.

(** [v == s] for a string [s] *)
Definition equals_str (v : json) (s : string) : bool :=
  match v with
  | JStr p => String.eqb p s
  | _ => false
  end.

(** One turn of the merge loop of [cmd_discover] for an entry whose name
    is a string, as the source annotates the entries ([Dict[str, str]]);
    [merge_step_any] below is the turn for a name of any type and agrees
    with this one on strings.  The state is the [vaults] dict, the number
    of clock readings taken so far and the diagnostics printed so far. *)
Definition merge_step (py_str : json -> string) (force : bool)
    (st : dict * nat * list string) (e : entry string)
  : dict * nat * list string :=
  let '(vaults, clock, diag) := st in
  let name := e_name e in
  let path := e_path e in
  if dict_mem name vaults && negb force then
    if negb (equals_str (existing_path name vaults) path)
    then (vaults, clock, (diag ++ [skip_message name])%list)
    else st
  else
    (dict_set name
       (vault_record path (existing_workdir py_str name vaults)
          (e_source e) (utc_now_iso_z h clock)) vaults,
     S clock, diag).

(** The merge loop of [cmd_discover], over entries whose names are
    strings *)
Definition merge (py_str : json -> string) (force : bool)
    (found : list (entry string)) (st : dict * nat * list string)
  : dict * nat * list string :=
  fold_left (merge_step py_str force) found st.

(** [cmd_discover --merge], on the document [load_registry] returned and
    on discovered entries whose names are strings; [cmd_discover_merge_any]
    below is the command on whatever [discover_vaults] found. *)
Definition cmd_discover_merge (py_str : json -> string) (registry : dict)
    (clock : nat) (found : list (entry string)) (args : merge_args)
  : outcome :=
  let '(vaults, _, diag) :=
    merge py_str (m_force args) found (vaults_of registry, clock, []) in
  let registry := dict_set "vaults" (JDict vaults) registry in
  done registry
    ("Merged " ++ NilEmpty.string_of_uint (Nat.to_uint (List.length found))
     ++ " vault(s)") diag.

(** *** The merge on what [discover_vaults] returns

    [extract_vault_entries] yields the name as it was decoded, any value
    that is true, so the keys the loop looks up and assigns need not be
    strings. *)








End WithHost.




(** *** Discovery in two steps: collect every entry, keep the first of each
    path *)

(** The entries of [es] whose path is neither in [seen] nor the path of an
    earlier entry of [es], in order. *)
Fixpoint keep_first (es : list (entry json)) (seen : list string)
  : list (entry json) :=
  match es with
  | [] => []
  | e :: rest =>
      if PyStr.mem (e_path e) seen then keep_first rest seen
      else e :: keep_first rest (e_path e :: seen)
  end.

(** The paths seen once [es] has been gone through. *)
Definition seen_after (es : list (entry json)) (seen : list string)
  : list string :=
  (rev (map e_path (keep_first es seen)) ++ seen)%list.

Section Collect.
Variable h : host.

(** Every pair a file yields, as an entry with its expanded path. *)
Fixpoint collect_entries (source : string) (yielded : list (res (json * json)))
  : res (list (entry json)) :=
  match yielded with
  | [] => Ok []
  | Raise e :: _ => Raise e
  | Ok (name, vault_path) :: rest =>
      match vault_path with
      | JStr p =>
          resolved <- PosixPath.expanduser (home_of h) p ;;
          es <- collect_entries source rest ;;
          Ok ({| e_name := name; e_path := resolved; e_source := source |} :: es)
      | _ => Raise (TypeError "expected str, bytes or os.PathLike object")
      end
  end.

(** Every entry of every usable candidate file, in order. *)
Fixpoint collect_files (files : list string) : res (list (entry json)) :=
  match files with
  | [] => Ok []
  | path :: rest =>
      if negb (path_exists h path) then collect_files rest
      else
        match read_text h path with
        | Raise e =>
            if is_os_or_json_error e then collect_files rest else Raise e
        | Ok text =>
            match json_loads h text with
            | Raise e =>
                if is_os_or_json_error e then collect_files rest else Raise e
            | Ok data =>
                es <- collect_entries path (extract_vault_entries data) ;;
                es' <- collect_files rest ;;
                Ok (es ++ es')%list
            end
        end
  end.

End Collect.
End Discovery.

(** ** A decoder for JSON text

    [json.loads] on the fragment of JSON without fractions, exponents,
    [NaN]/[Infinity] and without escapes above code point 255; text outside
    the fragment is not decoded.  The commands take their decoder from the
    host; this one serves the concrete hosts below. *)

Module JsonText.
Import Json.
Open Scope char_scope.

Definition is_ws (c : ascii) : bool :=
  match c with
  | " " | "009" | "010" | "013" => true
  | _ => false
  end.

Fixpoint skip_ws (l : list ascii) : list ascii :=
  match l with
  | c :: r => if is_ws c then skip_ws r else l
  | [] => []
  end.

Definition digit (c : ascii) : option Z :=
  let n := nat_of_ascii c in
  if Nat.leb 48 n && Nat.leb n 57 then Some (Z.of_nat (n - 48)) else None.

Definition hex (c : ascii) : option nat :=
  let n := nat_of_ascii c in
  if Nat.leb 48 n && Nat.leb n 57 then Some (n - 48)
  else if Nat.leb 97 n && Nat.leb n 102 then Some (n - 87)
  else if Nat.leb 65 n && Nat.leb n 70 then Some (n - 55)
  else None.

Definition unescape (c : ascii) : option ascii :=
  match c with
  | "034" => Some "034"
  | "\" => Some "\"
  | "/" => Some "/"
  | "b" => Some "008"
  | "f" => Some "012"
  | "n" => Some "010"
  | "r" => Some "013"
  | "t" => Some "009"
  | _ => None
  end.

(** The rest of a string literal, after its opening quote. *)
Fixpoint parse_string (l : list ascii) (acc : list ascii)
  : option (string * list ascii) :=
  match l with
  | [] => None
  | "034" :: r => Some (PyStr.str (rev acc), r)
  | "\" :: "u" :: "0" :: "0" :: a :: b :: r =>
      match hex a, hex b with
      | Some x, Some y => parse_string r (ascii_of_nat (16 * x + y) :: acc)
      | _, _ => None
      end
  | "\" :: e :: r =>
      match unescape e with
      | Some c => parse_string r (c :: acc)
      | None => None
      end
  | c :: r =>
      if Nat.ltb (nat_of_ascii c) 32 then None else parse_string r (c :: acc)
  end.

Fixpoint parse_digits (l : list ascii) (acc : Z) : Z * list ascii :=
  match l with
  | c :: r =>
      match digit c with
      | Some d => parse_digits r (10 * acc + d)
      | None => (acc, l)
      end
  | [] => (acc, [])
  end.

(** An integer literal: [0] or a digit string without leading zero. *)
Definition parse_nat_literal (l : list ascii) : option (Z * list ascii) :=
  match l with
  | "0" :: r => Some (0%Z, r)
  | c :: r =>
      match digit c with
      | Some d => Some (parse_digits r d)
      | None => None
      end
  | [] => None
  end.

Definition integral (sign : Z) (l : list ascii) : option (json * list ascii) :=
  match parse_nat_literal l with
  | Some (n, r) =>
      match r with
      | "." :: _ | "e" :: _ | "E" :: _ => None
      | _ => Some (JInt (sign * n), r)
      end
  | None => None
  end.

Fixpoint parse_value (fuel : nat) (l : list ascii) {struct fuel}
  : option (json * list ascii) :=
  match fuel with
  | O => None
  | S fuel =>
      match l with
      | "{" :: r =>
          match skip_ws r with
          | "}" :: r' => Some (JDict [], r')
          | r' => parse_members fuel r' []
          end
      | "[" :: r =>
          match skip_ws r with
          | "]" :: r' => Some (JList [], r')
          | r' => parse_elements fuel r' []
          end
      | "034" :: r =>
          match parse_string r [] with
          | Some (s, r') => Some (JStr s, r')
          | None => None
          end
      | "n" :: "u" :: "l" :: "l" :: r => Some (JNull, r)
      | "t" :: "r" :: "u" :: "e" :: r => Some (JBool true, r)
      | "f" :: "a" :: "l" :: "s" :: "e" :: r => Some (JBool false, r)
      | "-" :: r => integral (-1) r
      | _ => integral 1 l
      end
  end
with parse_members (fuel : nat) (l : list ascii) (acc : dict) {struct fuel}
  : option (json * list ascii) :=
  match fuel with
  | O => None
  | S fuel =>
      match l with
      | "034" :: r =>
          match parse_string r [] with
          | Some (k, r1) =>
              match skip_ws r1 with
              | ":" :: r2 =>
                  match parse_value fuel (skip_ws r2) with
                  | Some (v, r3) =>
                      match skip_ws r3 with
                      | "," :: r4 =>
                          parse_members fuel (skip_ws r4) (dict_set k v acc)
                      | "}" :: r4 => Some (JDict (dict_set k v acc), r4)
                      | _ => None
                      end
                  | None => None
                  end
              | _ => None
              end
          | None => None
          end
      | _ => None
      end
  end
with parse_elements (fuel : nat) (l : list ascii) (acc : list json) {struct fuel}
  : option (json * list ascii) :=
  match fuel with
  | O => None
  | S fuel =>
      match parse_value fuel l with
      | Some (v, r1) =>
          match skip_ws r1 with
          | "," :: r2 => parse_elements fuel (skip_ws r2) (acc ++ [v])
          | "]" :: r2 => Some (JList (acc ++ [v]), r2)
          | _ => None
          end
      | None => None
      end
  end.

(** [json.loads]: one value, white space around it, nothing after. *)
Definition loads (s : string) : option json :=
  let l := skip_ws (PyStr.chars s) in
  match parse_value (S (List.length l)) l with
  | Some (v, r) =>
      match skip_ws r with
      | [] => Some v
      | _ => None
      end
  | None => None
  end.

End JsonText.

(** ** obsidian_cli.py: the command gate and executor *)

Module Cli.
Import Json.

(** The result envelope; [parsed] is [JNull] for Python's [None], and
    [output_stderr_only] is [None] when the key is not set. *)
Record envelope : Type := {
  ok : bool;
  command : list string;
  exit_code : Z;
  stdout : string;
  stderr : string;
  parsed : json;
  raw : string;
  binary : string;
  vault : string;
  ts : string;
  output_stderr_only : option bool
}.

(** What a call of [run_obsidian] comes to: the envelope it returns or the
    exception that leaves it, and the argument vectors it handed to
    [subprocess.run]. *)
Record run : Type := {
  result : res envelope;
  spawned : list (list string)
}.

(** [_default_cli_binary] *)
Definition _default_cli_binary : string := "obsidian".

(** [_to_iso_jsonable] *)
Fixpoint _to_iso_jsonable (obj : json) : json :=
  match obj with
  | JDict d => JDict (map (fun kv => let '(k, v) := kv in (k, _to_iso_jsonable v)) d)
  | JList items => JList (map _to_iso_jsonable items)
  | _ => obj
  end.

(** [_is_destructive]; [None] is no reason to block. *)
Definition _is_destructive (command : list string) (force_delete : bool)
  : option string :=
  match command with
  | [] => None
  | primary :: flags =>
      if String.eqb primary "delete" && PyStr.mem "permanent" flags
         && negb force_delete
      then Some "delete-permanent"
      else if String.eqb primary "delete" && negb force_delete
      then Some "delete"
      else if String.eqb primary "plugin:uninstall" && negb force_delete
      then Some "plugin-uninstall"
      else if String.eqb primary "publish:remove" && negb force_delete
      then Some "publish-remove"
      else if String.eqb primary "workspace:delete" && negb force_delete
      then Some "workspace-delete"
      else if PyStr.endswith primary ":delete"
              && negb (String.eqb primary "task:delete") && negb force_delete
      then Some ("command-" ++ primary)
      else None
  end.

(** [_is_json_text] *)
Definition _is_json_text (text : string) : bool :=
  match text with
  | String c _ => Ascii.eqb c "{"%char || Ascii.eqb c "["%char
  | EmptyString => false
  end.

(** [_command_needs_vault] *)
Definition _command_needs_vault (command : list string) : bool :=
  match command with
  | [] => false
  | verb :: _ =>
      negb (PyStr.mem verb
              ["help"; "version"; "reload"; "restart"; "vault"; "vaults";
               "vault:open"])
  end.



Section WithHost.
Variable h : host.

(** [_load_binary] *)
Definition _load_binary (override : string) : string :=
  let candidate :=
    PyStr.or_else (PyStr.strip override)
      (match environ h "OBSIDIAN_CLI_BIN" with Some v => v | None => "" end) in
  if PyStr.truthy candidate then candidate else _default_cli_binary.

(** [_safe_parse_json]; an exception of [json.loads] that is not a
    [JSONDecodeError] is not caught. *)
Definition _safe_parse_json (text : string) : res json :=
  if negb (_is_json_text text) then Ok JNull
  else
    match json_loads h text with
    | Ok v => Ok v
    | Raise e => if is_json_error e then Ok JNull else Raise e
    end.

Definition refusal (command : list string) (message binary vault : string)
    (now : nat) : envelope :=
  {| ok := false; command := command; exit_code := 1; stdout := "";
     stderr := message; parsed := JNull; raw := ""; binary := binary;
     vault := vault; ts := utc_now_iso_z h now;
     output_stderr_only := None |}.

(** [shutil.which(binary_path) or (binary_path if Path(binary_path).exists() else None)] *)
Definition resolve_binary (binary_path : string) : option string :=
  let fallback :=
    if path_exists h binary_path then Some binary_path else None in
  match which h binary_path with
  | Some p => if PyStr.truthy p then Some p else fallback
  | None => fallback
  end.

(** The tail of [run_obsidian], from the completed process on. *)
Definition report (command_list : list string)
    (resolved_binary vault : string) (parse_output : bool) (now : nat)
    (completed : completed) : res envelope :=
  let stdout := PyStr.or_else (c_stdout completed) "" in
  let stderr := PyStr.or_else (c_stderr completed) "" in
  parsed <- (if parse_output then _safe_parse_json stdout else Ok JNull) ;;
  Ok {| ok := Z.eqb (returncode completed) 0;
        command := command_list;
        exit_code := returncode completed;
        stdout := stdout;
        stderr := stderr;
        parsed := _to_iso_jsonable parsed;
        raw := PyStr.strip stdout;
        binary := resolved_binary;
        vault := vault;
        ts := utc_now_iso_z h now;
        output_stderr_only :=
          if parse_output && is_none parsed
             && negb (PyStr.truthy (PyStr.strip stdout))
          then Some (PyStr.truthy (PyStr.strip stderr))
          else None |}.

(** [run_obsidian]; [now] is the clock reading taken for [ts].  Nothing
    is caught around [subprocess.run] and [_safe_parse_json], so what they
    raise leaves the function. *)
Definition run_obsidian (command : list string) (vault binary : string)
    (force_delete parse_output : bool) (now : nat) : run :=
  let command_list := command in
  match command_list with
  | [] =>
      {| result := Ok (refusal [] "No command provided." binary vault now);
         spawned := [] |}
  | _ =>
      let binary_path := _load_binary binary in
      let not_found :=
        {| result :=
             Ok (refusal command_list
                   ("Obsidian CLI not found: " ++ binary_path)
                   binary_path vault now);
           spawned := [] |} in
      match resolve_binary binary_path with
      | None => not_found
      | Some resolved_binary =>
          if negb (PyStr.truthy resolved_binary) then not_found
          else
            let needs_vault := _command_needs_vault command_list in
            let has_vault_token :=
              existsb (fun part => PyStr.startswith part "vault=")
                command_list in
            let command_list :=
              if needs_vault && PyStr.truthy vault && negb has_vault_token
              then ("vault=" ++ vault) :: command_list
              else command_list in
            let vault :=
              if needs_vault && negb (PyStr.truthy vault) && has_vault_token
              then "" else vault in
            let blocked_reason :=
              match _is_destructive command_list force_delete with
              | Some reason => if PyStr.truthy reason then Some reason else None
              | None => None
              end in
            match blocked_reason with
            | Some blocked_reason =>
                {| result :=
                     Ok (refusal command_list
                           ("Refusing destructive operation (" ++ blocked_reason
                            ++ ") without --force-delete.")
                           resolved_binary vault now);
                   spawned := [] |}
            | None =>
                let argv := resolved_binary :: command_list in
                {| result :=
                     completed <- subprocess_run h argv ;;
                     report command_list resolved_binary vault parse_output
                       now completed;
                   spawned := [argv] |}
            end
      end
  end.

End WithHost.
End Cli.

(** ** obsidian_cli.py: vault discovery through the tool, and the entry point *)

Module CliTools.
Import Json.
Export Cli.

(** [str.splitlines()] line boundaries below code point 256. *)
Definition is_linebreak (c : ascii) : bool :=
  let n := nat_of_ascii c in
  (Nat.leb 10 n && Nat.leb n 13) || (Nat.leb 28 n && Nat.leb n 30)
  || Nat.eqb n 133.

(** [s.splitlines()]: a carriage return followed by a line feed is one
    boundary, and a final boundary opens no empty line. *)
Fixpoint splitlines_l (l : list ascii) (cur : list ascii) : list (list ascii) :=
  match l with
  | [] => match cur with [] => [] | _ => [rev cur] end
  | "013"%char :: "010"%char :: r => rev cur :: splitlines_l r []
  | c :: r =>
      if is_linebreak c then rev cur :: splitlines_l r []
      else splitlines_l r (c :: cur)
  end.

Definition splitlines (s : string) : list string :=
  map PyStr.str (splitlines_l (PyStr.chars s) []).

(** [s.lower()] below code point 256. *)
Definition lower_char (c : ascii) : ascii :=
  let n := nat_of_ascii c in
  if (Nat.leb 65 n && Nat.leb n 90)
     || (Nat.leb 192 n && Nat.leb n 222 && negb (Nat.eqb n 215))
  then ascii_of_nat (n + 32) else c.

Definition lower (s : string) : string :=
  PyStr.str (map lower_char (PyStr.chars s)).

(** [needle in s] *)
Fixpoint contains (needle s : string) : bool :=
  String.prefix needle s
  || match s with
     | EmptyString => false
     | String _ rest => contains needle rest
     end.

(** [s.split(sep, 1)] for a separator that occurs in [s]: what is before its
    first occurrence, and what is after. *)
Fixpoint split_once_l (sep : ascii) (l : list ascii) : list ascii * list ascii :=
  match l with
  | [] => ([], [])
  | c :: r =>
      if Ascii.eqb c sep then ([], r)
      else let '(before, after) := split_once_l sep r in (c :: before, after)
  end.

Definition split_once (sep : ascii) (s : string) : string * string :=
  let '(before, after) := split_once_l sep (PyStr.chars s) in
  (PyStr.str before, PyStr.str after).

Definition tab : ascii := "009"%char.
Definition space : ascii := " "%char.

(** [key in seen] for pairs of strings *)
Definition pair_mem (key : string * string) (seen : list (string * string))
  : bool :=
  existsb (fun k => String.eqb (fst k) (fst key) && String.eqb (snd k) (snd key))
          seen.

(** What a line of the listing stands for, if anything. *)
Definition parse_vault_line (line : string) : option (string * string) :=
  if PyStr.startswith (lower line) "name" && contains "path" (lower line)
  then None
  else
    let fields :=
      if contains (String tab "") line then
        let '(before, after) := split_once tab line in
        Some (PyStr.strip before, PyStr.strip after)
      else
        let pieces :=
          filter PyStr.truthy (map PyStr.strip (PyStr.split space line)) in
        match pieces with
        | [] | [_] => None
        | first :: _ => Some (first, last pieces "")
        end in
    match fields with
    | None => None
    | Some (name, path) =>
        if negb (PyStr.truthy name) || negb (PyStr.truthy path) then None
        else if negb (contains "/" path) && negb (PyStr.startswith path ".")
                && negb (PyStr.startswith path "~")
        then None
        else Some (name, path)
    end.

(** The loop of [_parse_vaults_text]; the state is [entries] and [seen]. *)
Fixpoint parse_vault_lines (lines : list string)
    (entries seen : list (string * string)) : list (string * string) :=
  match lines with
  | [] => entries
  | line :: rest =>
      match parse_vault_line line with
      | None => parse_vault_lines rest entries seen
      | Some key =>
          if pair_mem key seen then parse_vault_lines rest entries seen
          else parse_vault_lines rest (entries ++ [key])%list (key :: seen)
      end
  end.

(** [_parse_vaults_text]; an entry is its name and its path. *)
Definition _parse_vaults_text (text : string) : list (string * string) :=
  let lines :=
    map PyStr.strip
      (filter (fun line => PyStr.truthy (PyStr.strip line)) (splitlines text)) in
  parse_vault_lines lines [] [].

(** What one candidate of [_extract_vaults_from_payload] contributes;
    [with_label] tells whether [label] may stand in for [name]. *)
Definition named_path (with_label : bool) (item : json)
  : list (string * string) :=
  match item with
  | JDict d =>
      let name :=
        if with_label then or_else (dict_get "name" d) (dict_get "label" d)
        else dict_get "name" d in
      match name, dict_get "path" d with
      | JStr n, JStr p => [(n, p)]
      | _, _ => []
      end
  | _ => []
  end.

(** [_extract_vaults_from_payload] *)
Definition _extract_vaults_from_payload (payload : json)
  : list (string * string) :=
  match payload with
  | JNull => []
  | JList items => flat_map (named_path false) items
  | JDict d =>
      let nested := dict_get "vaults" d in
      let candidates :=
        match nested with
        | JList items => items
        | JDict vd => dict_values vd
        | _ => [payload]
        end in
      flat_map (named_path true) candidates
  | _ => []
  end.






Section WithHost.
Variable h : host.

(** [discover_vaults] of obsidian_cli.py: the entries it returns or the
    exception that leaves it, and the argument vectors handed to
    [subprocess.run]. *)
Definition discover_vaults (binary : string) (now : nat)
  : res (list (string * string)) * list (list string) :=
  let r := run_obsidian h ["vaults"; "verbose"] "" binary true true now in
  (result <- result r ;;
   if negb (ok result) then Ok []
   else
     let payload := parsed result in
     let entries :=
       if negb (is_none payload) then _extract_vaults_from_payload payload
       else [] in
     match entries with
     | _ :: _ => Ok entries
     | [] => Ok (_parse_vaults_text (stdout result))
     end,
   spawned r).


End WithHost.
End CliTools.

(** ** vault_registry.py: the listing and the skill name *)

Module RegistryViews.
Import Json.
Export Registry.

(** [sorted(keys)]: strings in code point order. *)
Fixpoint insert_sorted (x : string) (l : list string) : list string :=
  match l with
  | [] => [x]
  | y :: rest => if String.leb x y then x :: l else y :: insert_sorted x rest
  end.

Definition sorted (l : list string) : list string :=
  fold_right insert_sorted [] l.

(** One line of [cmd_list]: the marker, the name, and the path and working
    directory as they are stored. *)
Record row : Type := {
  r_marker : string;
  r_name : string;
  r_path : json;
  r_workdir : json
}.

(** What [cmd_list] prints: a dump of [active] and [vaults], a notice, or
    the rows. *)
Inductive listing : Type :=
| ListingJson (active : json) (vaults : dict)
| NothingRegistered
| Rows (rows : list row).

(** The row of one name in the loop of [cmd_list]. *)
Definition row_of (vaults : dict) (active : json) (name : string) : row :=
  let info := dict_get name vaults in
  {| r_marker := if Discovery.equals_str active name then "*" else " ";
     r_name := name;
     r_path :=
       match info with
       | JDict d => dict_get_default "path" (JStr "") d
       | _ => JStr ""
       end;
     r_workdir :=
       or_else
         (match info with
          | JDict d => dict_get_default "workdir" (JStr "") d
          | _ => JStr ""
          end) (JStr ".") |}.

(** [f"{marker} {name}\t{path}\t{rendered_workdir}"]; [py_str] is [str()] on
    the values that are not strings. *)
Definition render_row (py_str : json -> string) (r : row) : string :=
  let text v := match v with JStr s => s | _ => py_str v end in
  r_marker r ++ " " ++ r_name r ++ String "009"%char (text (r_path r))
  ++ String "009"%char (text (r_workdir r)).

(** [cmd_list], on the document [load_registry] returned; it always exits
    with 0 and saves nothing. *)
Definition cmd_list (registry : dict) (as_json : bool) : listing :=
  let vaults := vaults_of registry in
  let active := dict_get_default "active" (JStr "") registry in
  if as_json then ListingJson active vaults
  else
    match vaults with
    | [] => NothingRegistered
    | _ => Rows (map (row_of vaults active) (sorted (dict_keys vaults)))
    end.

Section WithHost.
Variable h : host.

(** The loop of [parse_skill_name_from_skill_md] over the lines after the
    first. *)
Fixpoint scan_front_matter (lines : list string) : option string :=
  match lines with
  | [] => None
  | line :: rest =>
      if String.eqb (PyStr.strip line) "---" then None
      else if PyStr.startswith line "name:"
      then Some (PyStr.strip (snd (CliTools.split_once ":"%char line)))
      else scan_front_matter rest
  end.

(** [parse_skill_name_from_skill_md]; an exception of [read_text] that is
    not an [OSError] is not caught. *)
Definition parse_skill_name_from_skill_md (skill_root : string)
  : res (option string) :=
  let skill_md := PosixPath.joinpath skill_root "SKILL.md" in
  if negb (path_exists h skill_md) then Ok None
  else
    match read_text h skill_md with
    | Raise e => if is_os_error e then Ok None else Raise e
    | Ok text =>
        match CliTools.splitlines text with
        | [] => Ok None
        | first :: rest =>
            if negb (String.eqb (PyStr.strip first) "---") then Ok None
            else Ok (scan_front_matter rest)
        end
    end.

(** [resolve_skill_name]; [override] is empty when none is given. *)
Definition resolve_skill_name (skill_root override : string) : res string :=
  if PyStr.truthy override then Ok (PyStr.strip override)
  else
    from_md <- parse_skill_name_from_skill_md skill_root ;;
    match from_md with
    | Some from_md =>
        if PyStr.truthy from_md then Ok from_md
        else Ok (PosixPath.path_name skill_root)
    | None => Ok (PosixPath.path_name skill_root)
    end.

End WithHost.
End RegistryViews.

(** ** A concrete host: files and directories by name, the decoder above *)

Module Sample.

Definition lookup (k : string) (l : list (string * string)) : option string :=
  match find (fun kv => String.eqb (fst kv) k) l with
  | Some kv => Some (snd kv)
  | None => None
  end.

(** JSON text written with [']: every ['] stands for the double quote. *)
Definition json_text (s : string) : string :=
  PyStr.replace "'"%char "034"%char s.

Definition stamp (n : nat) : string :=
  "2026-01-01T00:00:00." ++ NilEmpty.string_of_uint (Nat.to_uint n) ++ "Z".

(** A POSIX host whose files are [files], whose directories are [dirs],
    whose only user has home [/home/u], with [obsidian] on the search path
    and [child] as the behaviour of the child process.  Reading what is not
    one of the files raises an [OSError]; so does [subprocess.run] on a
    binary that is a directory. *)
Definition posix (files : list (string * string)) (dirs : list string)
    (child : list string -> completed) : host :=
  {| json_loads := fun text =>
       match JsonText.loads text with
       | Some v => Ok v
       | None => Raise (JSONDecodeError "Expecting value")
       end;
     path_exists := fun p => PyStr.mem p (map fst files) || PyStr.mem p dirs;
     path_is_dir := fun p => PyStr.mem p dirs;
     read_text := fun p =>
       match lookup p files with
       | Some text => Ok text
       | None =>
           if PyStr.mem p dirs then Raise (OSError "Is a directory")
           else Raise (OSError "No such file or directory")
       end;
     resolve := PosixPath.resolve_lexical;
     home_of := fun u => if String.eqb u "" then Some "/home/u" else None;
     platform := "linux";
     environ := fun _ => None;
     which := fun b =>
       if String.eqb b "obsidian" then Some "/usr/bin/obsidian" else None;
     subprocess_run := fun argv =>
       if PyStr.mem (hd "" argv) dirs then Raise (OSError "Permission denied")
       else Ok (child argv);
     utc_now_iso_z := stamp |}.

Definition prints (code : Z) (text : string) (_ : list string) : completed :=
  {| returncode := code; c_stdout := text; c_stderr := "" |}.

(** A host with nothing on disk. *)
Definition bare : host := posix [] [] (prints 0 "").


(** [str()] of a value that is not a string, for the hosts here. *)
Definition py_str (v : Json.json) : string :=
  match v with
  | Json.JStr s => s
  | Json.JBool true => "True"
  | Json.JInt z => NilZero.string_of_int (Z.to_int z)
  | _ => "?"
  end.

(** A registry with two vaults, [work] the active one. *)
Definition registry : Json.dict :=
  [("schema_version", Json.JInt 1);
   ("vaults",
    Json.JDict
      [("work", Registry.vault_record "/home/u/work" "inbox" "manual" (stamp 0));
       ("home", Registry.vault_record "/home/u/home" "" "manual" (stamp 1))]);
   ("active", Json.JStr "work")].

(** What discovery found: [work] again with another path, [home] with
    the stored path, and a new vault. *)
Definition found : list (Registry.entry string) :=
  [ {| Registry.e_name := "work"; Registry.e_path := "/mnt/work";
       Registry.e_source := "/home/u/.config/obsidian/obsidian.json" |};
    {| Registry.e_name := "home"; Registry.e_path := "/home/u/home";
       Registry.e_source := "/home/u/.config/obsidian/obsidian.json" |};
    {| Registry.e_name := "notes"; Registry.e_path := "/home/u/notes";
       Registry.e_source := "/home/u/.config/obsidian/obsidian.json" |} ].

Definition vaults : Json.dict := Registry.vaults_of registry.

(** The discovery scenario: Obsidian's own configuration file. *)
Definition config_file : string := "/home/u/.config/obsidian/obsidian.json".
Definition config_text : string :=
  json_text "{'vaults':{'Notes':{'path':'/home/u/notes'}}}".
Definition config_doc (key : string) : Json.json :=
  Json.JDict
    [("vaults",
      Json.JDict [(key, Json.JDict [("path", Json.JStr "/home/u/notes")])])].
Definition config_host : host :=
  posix [(config_file, config_text)] ["/home/u/.config/obsidian"] (prints 0 "").

(** One vault listed twice, the second time through a detour. *)
Definition detour_text : string :=
  json_text
    "{'vaults':{'a':{'path':'/home/u/notes'},'b':{'path':'/home/u/docs/../notes'}}}".
Definition detour_host : host :=
  posix [(config_file, detour_text)] ["/home/u/.config/obsidian"] (prints 0 "").








(** A registry file as the tool writes it, with a key of its own added. *)
Definition good_file : string := "/d/good.json".
Definition good_text : string :=
  json_text
    "{'schema_version':1,'vaults':{'w':{'path':'/w','workdir':''}},'active':'w','note':'kept'}".
Definition good_doc : Json.dict :=
  [("schema_version", Json.JInt 1);
   ("vaults",
    Json.JDict [("w", Json.JDict [("path", Json.JStr "/w");
                                  ("workdir", Json.JStr "")])]);
   ("active", Json.JStr "w");
   ("note", Json.JStr "kept")].
Definition good_host : host := posix [(good_file, good_text)] ["/d"; "/w"] (prints 0 "").

(** [add --name notes --path /w --workdir daily --allow-missing-workdir] *)
Definition add_notes : Registry.add_args :=
  {| Registry.add_name := "notes";
     Registry.add_path := "/w";
     Registry.add_workdir := "daily";
     Registry.add_allow_missing_workdir := true;
     Registry.add_source := "";
     Registry.add_force := false;
     Registry.add_allow_missing := true;
     Registry.add_set_active := false |}.

(** [set-workdir --workdir inbox/today --allow-missing-workdir], on the
    active vault *)
Definition set_today : Registry.set_workdir_args :=
  {| Registry.sw_name := "";
     Registry.sw_workdir := "inbox/today";
     Registry.sw_allow_missing_workdir := true |}.


(** Lines of a front matter before the name. *)
Definition md_front : list string := ["description: notes"].

(** A registry file with wrongly typed fields. *)
Definition odd_file : string := "/d/vaults.json".
Definition odd_text : string :=
  json_text "{'vaults':[1],'active':5,'extra':true}".
Definition odd_host : host := posix [(odd_file, odd_text)] ["/d"] (prints 0 "").

(** The host [h] with [file] holding bytes that are not text: it exists,
    and reading it as text raises [UnicodeDecodeError]. *)
Definition invalid_start_byte : string :=
  "'utf-8' codec can't decode byte 0xff in position 0: invalid start byte".
Definition with_garbled (file : string) (h : host) : host :=
  {| json_loads := json_loads h;
     path_exists := fun p => String.eqb p file || path_exists h p;
     path_is_dir := path_is_dir h;
     read_text := fun p =>
       if String.eqb p file then Raise (UnicodeDecodeError invalid_start_byte)
       else read_text h p;
     resolve := resolve h;
     home_of := home_of h;
     platform := platform h;
     environ := environ h;
     which := which h;
     subprocess_run := subprocess_run h;
     utc_now_iso_z := utc_now_iso_z h |}.

(** The registry file is such a file. *)
Definition garbled_host : host := with_garbled odd_file bare.

End Sample.

(** * Properties *)

Open Scope list_scope.

(** ** Lists of characters: splitting and stripping *)

Section SplitFacts.
Import PyStr.
Variable sep : ascii.

Lemma split_l_cons_sep (l : list ascii) :
  split_l sep (sep :: l) = [] :: split_l sep l.
Proof. simpl. now rewrite Ascii.eqb_refl. Qed.

Lemma split_l_not_nil (l : list ascii) : split_l sep l <> [].
Proof.
  induction l as [|c r IH]; simpl; [discriminate|].
  destruct (Ascii.eqb c sep); [discriminate|].
  destruct (split_l sep r); [contradiction|discriminate].
Qed.

Lemma split_l_cons_other (c : ascii) (l : list ascii) :
  c <> sep ->
  exists h t, split_l sep l = h :: t /\ split_l sep (c :: l) = (c :: h) :: t.
Proof.
  intros Hc. simpl.
  destruct (Ascii.eqb_spec c sep) as [->|_]; [contradiction|].
  destruct (split_l sep l) as [|h t] eqn:E.
  - now apply split_l_not_nil in E.
  - now exists h, t.
Qed.

Lemma split_l_app_sep (l1 l2 : list ascii) :
  split_l sep (l1 ++ sep :: l2) = split_l sep l1 ++ split_l sep l2.
Proof.
  induction l1 as [|c r IH].
  - simpl app. now rewrite split_l_cons_sep.
  - simpl. destruct (Ascii.eqb c sep).
    + now rewrite IH.
    + rewrite IH. destruct (split_l sep r) as [|h t] eqn:E.
      * now apply split_l_not_nil in E.
      * reflexivity.
Qed.

Lemma split_l_no_sep (w : list ascii) :
  Forall (fun c => c <> sep) w -> split_l sep w = [w].
Proof.
  induction 1 as [|c r Hc _ IH]; [reflexivity|].
  simpl. destruct (Ascii.eqb_spec c sep) as [->|_]; [contradiction|].
  now rewrite IH.
Qed.

(** Appending characters other than the separator only grows the last
    piece. *)
Lemma split_l_app_no_sep (x w : list ascii) :
  Forall (fun c => c <> sep) w ->
  exists init lst,
    split_l sep x = init ++ [lst] /\ split_l sep (x ++ w) = init ++ [lst ++ w].
Proof.
  intros Hw. induction x as [|c r (init & lst & E1 & E2)].
  - exists [], []. simpl. now rewrite split_l_no_sep.
  - simpl. destruct (Ascii.eqb c sep).
    + exists ([] :: init), lst. now rewrite E1, E2.
    + rewrite E1, E2. destruct init as [|i init'].
      * now exists [], (c :: lst).
      * now exists ((c :: i) :: init'), lst.
Qed.

Lemma split_l_all_sep (w : list ascii) :
  Forall (fun c => c = sep) w -> Forall (fun piece => piece = []) (split_l sep w).
Proof.
  induction 1 as [|c r -> _ IH].
  - now constructor.
  - rewrite split_l_cons_sep. now constructor.
Qed.

End SplitFacts.

Section StripFacts.
Import PyStr.
Variable p : ascii -> bool.

Lemma drop_while_split (l : list ascii) :
  exists w, l = w ++ drop_while p l /\ Forall (fun c => p c = true) w.
Proof.
  induction l as [|c r (w & E & Hw)].
  - now exists [].
  - simpl. destruct (p c) eqn:Hc.
    + exists (c :: w). split; [simpl; now f_equal | now constructor].
    + now exists [].
Qed.

Lemma rstrip_l_split (l : list ascii) :
  exists w, l = rstrip_l p l ++ w /\ Forall (fun c => p c = true) w.
Proof.
  unfold rstrip_l.
  destruct (drop_while_split (rev l)) as (w & E & Hw).
  exists (rev w). split.
  - rewrite <- rev_app_distr, <- E. now rewrite rev_involutive.
  - now apply Forall_rev.
Qed.

Lemma strip_l_split (l : list ascii) :
  exists wl wr,
    l = wl ++ strip_l p l ++ wr
    /\ Forall (fun c => p c = true) wl /\ Forall (fun c => p c = true) wr.
Proof.
  unfold strip_l, lstrip_l.
  destruct (drop_while_split l) as (wl & E1 & H1).
  destruct (rstrip_l_split (drop_while p l)) as (wr & E2 & H2).
  exists wl, wr. split; [|now split].
  now rewrite <- E2.
Qed.

End StripFacts.

(** ** Working-directory normalisation *)

Section WorkdirFacts.
Import PyStr Workdir.

Lemma chars_str (l : list ascii) : chars (str l) = l.
Proof. apply list_ascii_of_string_of_list_ascii. Qed.

Lemma str_chars (s : string) : str (chars s) = s.
Proof. apply string_of_list_ascii_of_string. Qed.

Lemma str_inj (l1 l2 : list ascii) : str l1 = str l2 -> l1 = l2.
Proof. intros E. rewrite <- (chars_str l1), <- (chars_str l2). now f_equal. Qed.

Variable f : string -> bool.
Hypothesis f_empty : f ""%string = false.

Lemma filter_pieces_all_sep (sep : ascii) (w : list ascii) :
  Forall (fun c => c = sep) w ->
  filter f (map str (split_l sep w)) = [].
Proof.
  intros Hw. apply (split_l_all_sep sep) in Hw.
  induction Hw as [|piece rest -> _ IH]; [reflexivity|].
  simpl. change (str []) with ""%string. now rewrite f_empty.
Qed.

Lemma filter_pieces_lead (sep : ascii) (w x : list ascii) :
  Forall (fun c => c = sep) w ->
  filter f (map str (split_l sep (w ++ x))) = filter f (map str (split_l sep x)).
Proof.
  induction 1 as [|c r -> _ IH]; [reflexivity|].
  simpl app. rewrite split_l_cons_sep. simpl.
  change (str []) with ""%string. now rewrite f_empty.
Qed.

Lemma filter_pieces_trail (sep : ascii) (x w : list ascii) :
  Forall (fun c => c = sep) w ->
  filter f (map str (split_l sep (x ++ w))) = filter f (map str (split_l sep x)).
Proof.
  intros Hw. destruct w as [|c r].
  - now rewrite app_nil_r.
  - inversion Hw as [|? ? Hc Hr]. subst c.
    rewrite split_l_app_sep, map_app, filter_app.
    rewrite (filter_pieces_all_sep sep r Hr). now rewrite app_nil_r.
Qed.

(** Stripping the separator off both ends drops empty pieces only. *)
Lemma filter_split_strip_char (v : string) :
  filter f (split slash (strip_char slash v)) = filter f (split slash v).
Proof.
  unfold split, strip_char. rewrite chars_str.
  destruct (strip_l_split (Ascii.eqb slash) (chars v)) as (wl & wr & E & Hl & Hr).
  set (core := strip_l (Ascii.eqb slash) (chars v)) in *.
  assert (Hsep : forall w, Forall (fun c => Ascii.eqb slash c = true) w ->
                           Forall (fun c => c = slash) w).
  { intros w Hw. eapply Forall_impl; [|exact Hw].
    intros c Hc. symmetry. now apply Ascii.eqb_eq. }
  rewrite E, filter_pieces_lead, filter_pieces_trail by auto.
  reflexivity.
Qed.

End WorkdirFacts.

Section SegmentFacts.
Import PyStr.
Variable sep : ascii.
Variable d : list ascii.
Let foreign (c : ascii) : Prop := c <> sep /\ ~ In c d.

Lemma foreign_no_sep (w : list ascii) :
  Forall foreign w -> Forall (fun c => c <> sep) w.
Proof. intros H. eapply Forall_impl; [|exact H]. now intros c [Hc _]. Qed.

(** Leading characters that occur neither in [d] nor as separator do not
    create a piece [d]. *)
Lemma In_split_lead (w x : list ascii) :
  Forall foreign w -> In d (split_l sep (w ++ x)) -> In d (split_l sep x).
Proof.
  induction 1 as [|c r [Hc Hd] _ IH]; [auto|].
  simpl app. intros Hin.
  destruct (split_l_cons_other sep c (r ++ x) Hc) as (hd & tl & E1 & E2).
  rewrite E2 in Hin. apply IH. rewrite E1.
  destruct Hin as [E|Hin]; [|now right].
  exfalso. apply Hd. rewrite <- E. now left.
Qed.

Lemma In_split_trail (x w : list ascii) :
  Forall foreign w -> In d (split_l sep (x ++ w)) -> In d (split_l sep x).
Proof.
  intros Hw Hin.
  destruct (split_l_app_no_sep sep x w (foreign_no_sep w Hw))
    as (init & lst & E1 & E2).
  rewrite E2 in Hin. rewrite E1.
  apply in_app_or in Hin. apply in_or_app.
  destruct Hin as [Hin|[E|[]]]; [now left|right; left].
  destruct w as [|c r]; [now rewrite app_nil_r in E|].
  exfalso. apply Forall_inv in Hw. destruct Hw as [_ Hd].
  apply Hd. rewrite <- E. apply in_or_app. right. now left.
Qed.

End SegmentFacts.

Section NormalizeWorkdir.
Import PyStr Workdir.

Lemma has_dotdot_segment_In (s : string) :
  has_dotdot_segment s = true <-> In dd (segments_l (chars s)).
Proof.
  unfold has_dotdot_segment, segments, split, replace, segments_l.
  rewrite chars_str, existsb_exists. split.
  - intros (part & Hin & E). apply in_map_iff in Hin.
    destruct Hin as (l & <- & Hl). apply String.eqb_eq in E.
    now rewrite (str_inj l dd E) in Hl.
  - intros Hin. exists (str dd). split; [now apply in_map|reflexivity].
Qed.

Lemma space_is_foreign (c : ascii) :
  is_space c = true ->
  (if Ascii.eqb c backslash then slash else c) = c
  /\ c <> slash /\ ~ In c dd.
Proof.
  intros Hc. repeat split.
  - destruct (Ascii.eqb_spec c backslash) as [->|]; [discriminate Hc|reflexivity].
  - intros ->. discriminate Hc.
  - intros [<-|[<-|[]]]; discriminate Hc.
Qed.

Lemma replace_l_spaces (w : list ascii) :
  Forall (fun c => is_space c = true) w ->
  Forall (fun c => c <> slash /\ ~ In c dd) (replace_l backslash slash w).
Proof.
  induction 1 as [|c r Hc _ IH]; [constructor|].
  simpl. destruct (space_is_foreign c Hc) as (-> & H1 & H2).
  now constructor.
Qed.

(** A [..] segment of the text is still one after [strip()]. *)
Lemma has_dotdot_segment_strip (raw : string) :
  has_dotdot_segment raw = true -> has_dotdot_segment (strip raw) = true.
Proof.
  rewrite !has_dotdot_segment_In. unfold strip. rewrite chars_str.
  destruct (strip_l_split is_space (chars raw)) as (wl & wr & E & Hl & Hr).
  set (core := strip_l is_space (chars raw)) in *.
  rewrite E. unfold segments_l, replace_l. rewrite !map_app.
  intros Hin.
  apply (In_split_lead slash dd) in Hin; [|now apply replace_l_spaces].
  apply (In_split_trail slash dd) in Hin; [|now apply replace_l_spaces].
  exact Hin.
Qed.

Lemma existsb_dotdot_kept (l : list string) :
  existsb (fun part => String.eqb part "..") (filter kept l)
  = existsb (fun part => String.eqb part "..") l.
Proof.
  induction l as [|x r IH]; [reflexivity|].
  simpl. destruct (kept x) eqn:K; simpl; rewrite IH; [reflexivity|].
  destruct (String.eqb_spec x "..") as [->|]; [discriminate K|reflexivity].
Qed.

(** [normalize_workdir] in one formula: the kept segments of the stripped
    text, rejected when one of them is [..], joined otherwise. *)
Lemma normalize_workdir_segments (raw : string) :
  normalize_workdir raw =
    if has_dotdot_segment (strip raw) then Raise dotdot_error
    else Ok (join "/" (filter kept (segments (strip raw)))).
Proof.
  unfold has_dotdot_segment. rewrite <- existsb_dotdot_kept.
  unfold normalize_workdir.
  destruct (mem (strip raw) [""; "."; "./"]%string) eqn:M.
  - unfold mem in M. simpl in M.
    repeat (apply orb_prop in M; destruct M as [M|M]);
      try discriminate M; apply String.eqb_eq in M; rewrite M; reflexivity.
  - rewrite (filter_split_strip_char (fun p => negb (mem p [""; "."]%string)) eq_refl).
    fold (segments (strip raw)). fold kept.
    destruct (filter kept (segments (strip raw))); reflexivity.
Qed.

End NormalizeWorkdir.

(** C7: the inputs "", "." and "./" normalise to the empty string, and every
    input with a [..] path segment (between [/] or [\] separators, anywhere
    in the text) is rejected with the [ValueError]. *)
Theorem normalize_workdir_root_and_traversal :
  Workdir.normalize_workdir "" = Ok ""%string
  /\ Workdir.normalize_workdir "." = Ok ""%string
  /\ Workdir.normalize_workdir "./" = Ok ""%string
  /\ forall raw : string,
       Workdir.has_dotdot_segment raw = true ->
       Workdir.normalize_workdir raw = Raise Workdir.dotdot_error.
Proof.
  repeat split; try reflexivity.
  intros raw H. rewrite normalize_workdir_segments.
  now rewrite (has_dotdot_segment_strip raw H).
Qed.

Lemma normalize_workdir_root_and_traversal_witness :
  Workdir.has_dotdot_segment " notes\..\secret/ " = true
  /\ Workdir.normalize_workdir " notes\..\secret/ " = Raise Workdir.dotdot_error.
Proof.
  split; [reflexivity|].
  apply (proj2 (proj2 (proj2 normalize_workdir_root_and_traversal))).
  reflexivity.
Defined.

(** C10: normalisation rejects nothing but a [..] segment: after [strip()],
    backslashes count as slashes, empty and [.] segments (so leading, trailing
    and doubled slashes) are dropped and the rest is joined with [/]; an
    absolute-looking text is accepted as the relative one. *)
Theorem normalize_workdir_rejects_only_traversal :
  (forall raw : string,
     Workdir.normalize_workdir raw =
       if Workdir.has_dotdot_segment (PyStr.strip raw)
       then Raise Workdir.dotdot_error
       else Ok (PyStr.join "/"
                  (filter Workdir.kept (Workdir.segments (PyStr.strip raw)))))
  /\ Workdir.normalize_workdir "/a\b/" = Ok "a/b"%string
  /\ Workdir.normalize_workdir "/notes" = Ok "notes"%string.
Proof.
  split; [exact normalize_workdir_segments|split; reflexivity].
Qed.

(** ** Dictionaries *)

Section DictFacts.
Import Json.

Lemma dict_mem_find (k : string) (d : dict) :
  dict_mem k d = match dict_find k d with Some _ => true | None => false end.
Proof.
  induction d as [|[k' v] r IH]; [reflexivity|].
  simpl. destruct (String.eqb k' k); [reflexivity|exact IH].
Qed.

Lemma dict_find_set (k k' : string) (v : json) (d : dict) :
  dict_find k' (dict_set k v d)
  = if String.eqb k k' then Some v else dict_find k' d.
Proof.
  induction d as [|[a b] r IH]; [reflexivity|].
  simpl. destruct (String.eqb_spec a k) as [->|Hak]; simpl.
  - now destruct (String.eqb k k').
  - rewrite IH. destruct (String.eqb_spec a k') as [->|_]; [|reflexivity].
    destruct (String.eqb_spec k k') as [->|_]; [contradiction|reflexivity].
Qed.

Lemma dict_find_set_same (k : string) (v : json) (d : dict) :
  dict_find k (dict_set k v d) = Some v.
Proof. now rewrite dict_find_set, String.eqb_refl. Qed.

Lemma dict_find_setdefault (k k' : string) (v : json) (d : dict) :
  dict_find k' (dict_setdefault k v d)
  = if String.eqb k k'
    then Some (match dict_find k d with Some x => x | None => v end)
    else dict_find k' d.
Proof.
  unfold dict_setdefault. rewrite dict_mem_find.
  destruct (dict_find k d) as [x|] eqn:E.
  - destruct (String.eqb_spec k k') as [<-|_]; [exact E|reflexivity].
  - rewrite dict_find_set. now destruct (String.eqb k k').
Qed.

Lemma dict_mem_set (k k' : string) (v : json) (d : dict) :
  dict_mem k' (dict_set k v d) = String.eqb k k' || dict_mem k' d.
Proof.
  rewrite !dict_mem_find, dict_find_set. now destruct (String.eqb k k').
Qed.

Lemma dict_mem_pop (k k' : string) (d : dict) :
  dict_mem k' (dict_pop k d) = negb (String.eqb k k') && dict_mem k' d.
Proof.
  induction d as [|[a b] r IH]; [now rewrite andb_false_r|].
  simpl. destruct (String.eqb_spec a k) as [->|Hak]; simpl.
  - rewrite IH. now destruct (String.eqb k k').
  - rewrite IH. destruct (String.eqb_spec a k') as [->|_]; simpl; [|reflexivity].
    destruct (String.eqb_spec k k') as [->|_]; [contradiction|reflexivity].
Qed.

Lemma dict_find_pop_other (k k' : string) (d : dict) :
  k <> k' -> dict_find k' (dict_pop k d) = dict_find k' d.
Proof.
  intros Hk. induction d as [|[a b] r IH]; [reflexivity|].
  simpl. destruct (String.eqb_spec a k) as [->|Hak]; simpl.
  - destruct (String.eqb_spec k k'); [contradiction|exact IH].
  - now rewrite IH.
Qed.

Lemma dict_get_set (k k' : string) (v : json) (d : dict) :
  dict_get k' (dict_set k v d) = if String.eqb k k' then v else dict_get k' d.
Proof. unfold dict_get. rewrite dict_find_set. now destruct (String.eqb k k'). Qed.

End DictFacts.

(** ** The registry document *)

Section LoadRegistry.
Import Json Registry.
Variable h : host.

(** What [load_registry] does to a decoded object. *)
Let coerced (data : dict) : dict :=
  let data := dict_setdefault "schema_version" (JInt 1) data in
  let data := dict_setdefault "vaults" (JDict []) data in
  let data := dict_setdefault "active" (JStr "") data in
  let data :=
    if negb (is_dict (dict_get "vaults" data))
    then dict_set "vaults" (JDict []) data else data in
  if negb (is_str (dict_get "active" data))
  then dict_set "active" (JStr "") data else data.

(** The three ways [load_registry] ends: with the empty registry, with a
    decoded object made to fit, or with an exception of the reading or the
    decoding that its [except] clause does not name. *)
Lemma load_registry_cases (path : string) :
  load_registry h path = Ok empty_registry
  \/ (exists text data,
        path_exists h path = true /\ read_text h path = Ok text
        /\ json_loads h text = Ok (JDict data)
        /\ load_registry h path = Ok (coerced data))
  \/ exists e,
       load_registry h path = Raise e /\ is_os_or_json_error e = false
       /\ path_exists h path = true
       /\ (read_text h path = Raise e
           \/ exists text, read_text h path = Ok text
                           /\ json_loads h text = Raise e).
Proof.
  unfold load_registry.
  destruct (path_exists h path) eqn:E; [|now left]. simpl.
  destruct (read_text h path) as [text|e] eqn:R.
  - destruct (json_loads h text) as [[]|e] eqn:L; try now left.
    + right. left. now exists text, d.
    + destruct (is_os_or_json_error e) eqn:C; [now left|].
      right. right. exists e. repeat split; trivial. right. now exists text.
  - destruct (is_os_or_json_error e) eqn:C; [now left|].
    right. right. exists e. repeat split; trivial. now left.
Qed.

Lemma coerced_fields (data : dict) :
  dict_mem "schema_version" (coerced data) = true
  /\ dict_find "vaults" (coerced data)
     = Some (if is_dict (dict_get "vaults" data)
             then dict_get "vaults" data else JDict [])
  /\ dict_find "active" (coerced data)
     = Some (if is_str (dict_get "active" data)
             then dict_get "active" data else JStr ""%string).
Proof.
  unfold coerced.
  set (d3 := dict_setdefault "active" _ _).
  assert (S3 : exists v, dict_find "schema_version" d3 = Some v).
  { unfold d3. rewrite !dict_find_setdefault. cbn [String.eqb Ascii.eqb Bool.eqb].
    eexists. reflexivity. }
  assert (V3 : dict_find "vaults" d3
               = Some (match dict_find "vaults" data with
                       | Some x => x | None => JDict [] end)).
  { unfold d3. rewrite !dict_find_setdefault. reflexivity. }
  assert (A3 : dict_find "active" d3
               = Some (match dict_find "active" data with
                       | Some x => x | None => JStr ""%string end)).
  { unfold d3. rewrite !dict_find_setdefault. reflexivity. }
  clearbody d3. destruct S3 as [sv S3].
  set (d4 := if negb (is_dict (dict_get "vaults" d3)) then _ else d3).
  assert (S4 : dict_find "schema_version" d4 = Some sv).
  { unfold d4. destruct (negb _); [rewrite dict_find_set|]; exact S3. }
  assert (A4 : dict_find "active" d4 = dict_find "active" d3).
  { unfold d4. destruct (negb _); [rewrite dict_find_set|]; reflexivity. }
  assert (V4 : dict_find "vaults" d4
               = Some (if is_dict (dict_get "vaults" data)
                       then dict_get "vaults" data else JDict [])).
  { unfold d4, dict_get. rewrite V3.
    destruct (dict_find "vaults" data) as [x|] eqn:E; rewrite ?E in V3.
    - destruct (is_dict x); simpl; [exact V3|now rewrite dict_find_set].
    - simpl. exact V3. }
  clearbody d4. rewrite dict_mem_find.
  assert (G : dict_get "active" d4
              = match dict_find "active" data with
                | Some x => x | None => JStr ""%string end).
  { unfold dict_get. now rewrite A4, A3. }
  rewrite G. unfold dict_get.
  destruct (dict_find "active" data) as [x|] eqn:E; rewrite ?E in A3; simpl.
  - destruct (is_str x) eqn:Ex; simpl.
    + rewrite S4, V4, A4, A3. now repeat split.
    + rewrite !dict_find_set; simpl. rewrite S4, V4. now repeat split.
  - rewrite S4, V4, A4, A3. now repeat split.
Qed.

Lemma load_registry_decoded (path text : string) (data : dict) :
  path_exists h path = true -> read_text h path = Ok text ->
  json_loads h text = Ok (JDict data) ->
  exists registry,
    load_registry h path = Ok registry
    /\ dict_find "vaults" registry
       = Some (if is_dict (dict_get "vaults" data)
               then dict_get "vaults" data else JDict [])
    /\ dict_find "active" registry
       = Some (if is_str (dict_get "active" data)
               then dict_get "active" data else JStr ""%string).
Proof.
  intros E R L. exists (coerced data). split.
  - unfold load_registry. now rewrite E, R, L.
  - apply coerced_fields.
Qed.

Lemma load_registry_fields (path : string) (registry : dict) :
  load_registry h path = Ok registry ->
  dict_mem "schema_version" registry = true
  /\ (exists vaults, dict_find "vaults" registry = Some (JDict vaults))
  /\ (exists active, dict_find "active" registry = Some (JStr active)).
Proof.
  destruct (load_registry_cases path)
    as [->|[(text & data & _ & _ & _ & ->)|(e & -> & _)]];
    [intros [= <-]|intros [= <-]|discriminate].
  - repeat split; [now exists []|now exists ""%string].
  - destruct (coerced_fields data) as (S & V & A). rewrite V, A.
    repeat split; [exact S| |].
    + destruct (dict_get "vaults" data); simpl; eauto.
    + destruct (dict_get "active" data); simpl; eauto.
Qed.

(** [load_registry] raises only what the reading or the decoding of an
    existing file raised, and only if that is neither an [OSError] nor a
    [JSONDecodeError]. *)
Lemma load_registry_raises (path : string) (e : exn) :
  load_registry h path = Raise e ->
  is_os_or_json_error e = false /\ path_exists h path = true
  /\ (read_text h path = Raise e
      \/ exists text, read_text h path = Ok text /\ json_loads h text = Raise e).
Proof.
  destruct (load_registry_cases path)
    as [->|[(text & data & _ & _ & _ & ->)|(e' & -> & C & E & W)]];
    [discriminate|discriminate|].
  intros [= <-]. now repeat split.
Qed.

End LoadRegistry.

(** C9, where the code departs from it: a registry file whose bytes are
    not text.  [read_text] raises [UnicodeDecodeError] there, the [except]
    clause of [load_registry] names [OSError] and [JSONDecodeError] only,
    and the exception leaves [load_registry]: no dictionary is returned.
    Whenever [load_registry] does return, the dictionary is as C9 says
    ([schema_version] present, [vaults] a dict, [active] a string, wrongly
    typed ones replaced by the empty dict and the empty string); and it
    raises only what the reading or the decoding raised outside the two
    classes it names. *)
Theorem load_registry_raises_on_bytes_that_are_not_text :
  (path_exists Sample.garbled_host Sample.odd_file = true
   /\ read_text Sample.garbled_host Sample.odd_file
      = Raise (UnicodeDecodeError Sample.invalid_start_byte)
   /\ Registry.load_registry Sample.garbled_host Sample.odd_file
      = Raise (UnicodeDecodeError Sample.invalid_start_byte))
  /\ (forall (h : host) (path : string) (registry : Json.dict),
        Registry.load_registry h path = Ok registry ->
        Json.dict_mem "schema_version" registry = true
        /\ (exists vaults,
              Json.dict_find "vaults" registry = Some (Json.JDict vaults))
        /\ (exists active,
              Json.dict_find "active" registry = Some (Json.JStr active))
        /\ forall (text : string) (data : Json.dict),
             path_exists h path = true -> read_text h path = Ok text ->
             json_loads h text = Ok (Json.JDict data) ->
             Json.dict_find "vaults" registry
               = Some (if Json.is_dict (Json.dict_get "vaults" data)
                       then Json.dict_get "vaults" data else Json.JDict [])
             /\ Json.dict_find "active" registry
               = Some (if Json.is_str (Json.dict_get "active" data)
                       then Json.dict_get "active" data
                       else Json.JStr ""%string))
  /\ (forall (h : host) (path : string) (e : exn),
        Registry.load_registry h path = Raise e ->
        is_os_or_json_error e = false
        /\ path_exists h path = true
        /\ (read_text h path = Raise e
            \/ exists text, read_text h path = Ok text
                            /\ json_loads h text = Raise e)).
Proof.
  split; [repeat split; reflexivity|]. split.
  - intros h path registry L.
    destruct (load_registry_fields h path registry L) as (S & V & A).
    repeat split; try assumption;
      destruct (load_registry_decoded h path text data H H0 H1)
        as (r & Lr & Vr & Ar);
      rewrite L in Lr; injection Lr as <-; assumption.
  - intros h path e. apply load_registry_raises.
Qed.

(** ** The [active] invariant *)

Section ActiveInvariant.
Import Json Registry Discovery.

Lemma vaults_of_set (vaults : dict) (registry : dict) :
  vaults_of (dict_set "vaults" (JDict vaults) registry) = vaults.
Proof.
  unfold vaults_of, dict_get_default. now rewrite dict_find_set_same.
Qed.

Lemma vaults_of_get (registry vaults : dict) :
  dict_get "vaults" registry = JDict vaults -> vaults_of registry = vaults.
Proof.
  unfold vaults_of, dict_get, dict_get_default.
  destruct (dict_find "vaults" registry); [now intros ->|discriminate].
Qed.

(** Replacing [vaults] by a dict with at least the same keys. *)
Lemma active_ok_grow (registry vaults' : dict) :
  active_ok registry = true ->
  (forall k, dict_mem k (vaults_of registry) = true -> dict_mem k vaults' = true) ->
  active_ok (dict_set "vaults" (JDict vaults') registry) = true.
Proof.
  unfold active_ok. rewrite !dict_get_set. simpl.
  destruct (dict_get "active" registry) as [| | | |a| |]; auto.
  destruct (PyStr.truthy a); simpl; [|reflexivity].
  destruct (dict_get "vaults" registry) as [| | | | | |v] eqn:V; try discriminate.
  intros Hin Hsub. apply Hsub. now rewrite (vaults_of_get registry v V).
Qed.

Lemma active_ok_select (registry vaults : dict) (name : string) :
  dict_mem name vaults = true ->
  active_ok (dict_set "active" (JStr name)
               (dict_set "vaults" (JDict vaults) registry)) = true.
Proof.
  intros Hin. unfold active_ok. rewrite !dict_get_set. simpl.
  rewrite Hin. apply orb_true_r.
Qed.

Lemma merge_step_keeps_keys (h : host) (py_str : json -> string)
    (force : bool) (st : dict * nat * list string) (e : entry string)
    (k : string) :
  dict_mem k (fst (fst st)) = true ->
  dict_mem k (fst (fst (merge_step h py_str force st e))) = true.
Proof.
  destruct st as [[vaults clock] diag]. unfold merge_step. simpl.
  intros Hk.
  destruct (dict_mem (e_name e) vaults && negb force).
  - now destruct (negb _).
  - simpl. rewrite dict_mem_set, Hk. apply orb_true_r.
Qed.

Lemma merge_keeps_keys (h : host) (py_str : json -> string) (force : bool)
    (found : list (entry string)) (st : dict * nat * list string)
    (k : string) :
  dict_mem k (fst (fst st)) = true ->
  dict_mem k (fst (fst (merge h py_str force found st))) = true.
Proof.
  unfold merge. revert st.
  induction found as [|e r IH]; intros st Hk; [exact Hk|].
  simpl. apply IH. now apply merge_step_keeps_keys.
Qed.

Lemma active_ok_vaults (registry : dict) (a : string) :
  active_ok registry = true -> dict_get "active" registry = JStr a ->
  PyStr.truthy a = true -> dict_mem a (vaults_of registry) = true.
Proof.
  unfold active_ok. intros Hok A T. rewrite A, T in Hok. simpl in Hok.
  destruct (dict_get "vaults" registry) eqn:V; try discriminate.
  now rewrite (vaults_of_get registry d V).
Qed.

Lemma cmd_remove_keeps (registry : dict) (name : string) (r' : dict) :
  active_ok registry = true ->
  saved (cmd_remove registry name) = Some r' -> active_ok r' = true.
Proof.
  intros Hok. unfold cmd_remove.
  destruct (negb (dict_mem name (vaults_of registry))); [discriminate|].
  simpl. intros [= <-]. rewrite dict_get_set. simpl.
  destruct (dict_get "active" registry) as [| | | |a| |] eqn:A;
    try (unfold active_ok; rewrite !dict_get_set; simpl; now rewrite A).
  destruct (String.eqb_spec a name) as [->|Hne].
  - unfold active_ok. now rewrite !dict_get_set.
  - unfold active_ok. rewrite !dict_get_set. simpl. rewrite A.
    destruct (PyStr.truthy a) eqn:T; [simpl|reflexivity].
    rewrite dict_mem_pop, (active_ok_vaults registry a Hok A T).
    destruct (String.eqb_spec name a) as [->|_]; [contradiction|reflexivity].
Qed.

Lemma cmd_remove_active (registry : dict) (name : string) :
  active_ok registry = true -> PyStr.truthy name = true ->
  dict_get "active" registry = JStr name ->
  exists r',
    saved (cmd_remove registry name) = Some r'
    /\ dict_get "active" r' = JStr ""%string
    /\ dict_mem name (vaults_of r') = false.
Proof.
  intros Hok T A. unfold cmd_remove.
  rewrite (active_ok_vaults registry name Hok A T). simpl.
  rewrite dict_get_set. simpl. rewrite A, String.eqb_refl.
  eexists. split; [reflexivity|]. split.
  - now rewrite dict_get_set.
  - unfold vaults_of, dict_get_default. rewrite !dict_find_set. simpl.
    now rewrite dict_mem_pop, String.eqb_refl.
Qed.

Lemma cmd_set_active_keeps (registry : dict) (name : string) (r' : dict) :
  active_ok registry = true ->
  saved (cmd_set_active registry name) = Some r' -> active_ok r' = true.
Proof.
  intros Hok. unfold cmd_set_active.
  destruct (dict_mem name (vaults_of registry)) eqn:M; [|discriminate].
  simpl. intros [= <-]. unfold active_ok. rewrite !dict_get_set. simpl.
  unfold vaults_of, dict_get_default in M. unfold dict_get.
  destruct (dict_find "vaults" registry) as [[]|]; try discriminate M.
  rewrite M. apply orb_true_r.
Qed.

Variable h : host.

Lemma cmd_add_keeps (registry : dict) (now : nat) (args : add_args)
    (o : outcome) (r' : dict) :
  active_ok registry = true ->
  cmd_add h registry now args = Ok o -> saved o = Some r' ->
  active_ok r' = true.
Proof.
  intros Hok. unfold cmd_add.
  destruct (expand_resolve h (add_path args)) as [vault_path|]; [|discriminate].
  simpl.
  destruct (negb (add_allow_missing args) && _); [now intros [= <-]|].
  destruct (dict_mem _ _ && _); [now intros [= <-]|].
  destruct (normalize_workdir (add_workdir args)) as [workdir|[]];
    try discriminate; [|now intros [= <-]].
  destruct (PyStr.truthy workdir && negb _ && _); [now intros [= <-]|].
  destruct (PyStr.truthy workdir && path_exists h _ && _); [now intros [= <-]|].
  intros [= <-]. simpl. intros [= <-].
  destruct (add_set_active args).
  - apply active_ok_select. now rewrite dict_mem_set, String.eqb_refl.
  - apply active_ok_grow; [exact Hok|].
    intros k Hk. rewrite dict_mem_set, Hk. apply orb_true_r.
Qed.

Lemma cmd_set_workdir_keeps (registry : dict) (now : nat)
    (args : set_workdir_args) (o : outcome) (r' : dict) :
  active_ok registry = true ->
  cmd_set_workdir h registry now args = Ok o -> saved o = Some r' ->
  active_ok r' = true.
Proof.
  intros Hok. unfold cmd_set_workdir.
  destruct (or_else _ _); try now intros [= <-].
  destruct (negb (PyStr.truthy s)); [now intros [= <-]|].
  destruct (negb (dict_mem s (vaults_of registry))); [now intros [= <-]|].
  destruct (dict_get_default "path" _ _); try now intros [= <-].
  destruct (negb (PyStr.truthy s0)); [now intros [= <-]|].
  destruct (normalize_workdir (sw_workdir args)) as [workdir|[]];
    try discriminate; [|now intros [= <-]].
  destruct (expand_resolve h s0) as [vault_path|]; [|discriminate].
  simpl.
  destruct (PyStr.truthy workdir && negb _ && _); [now intros [= <-]|].
  destruct (path_exists h _ && _); [now intros [= <-]|].
  intros [= <-]. simpl. intros [= <-].
  apply active_ok_grow; [exact Hok|].
  intros k Hk. rewrite dict_mem_set, Hk. apply orb_true_r.
Qed.

Lemma cmd_discover_merge_keeps (py_str : json -> string) (registry : dict)
    (clock : nat) (found : list (entry string)) (args : merge_args)
    (r' : dict) :
  active_ok registry = true ->
  saved (cmd_discover_merge h py_str registry clock found args) = Some r' ->
  active_ok r' = true.
Proof.
  intros Hok. unfold cmd_discover_merge.
  destruct (merge h py_str (m_force args) found (vaults_of registry, clock, []))
    as [[vaults c] diag] eqn:M.
  simpl. intros [= <-]. apply active_ok_grow; [exact Hok|].
  intros k Hk.
  change vaults with (fst (fst (vaults, c, diag))). rewrite <- M.
  now apply merge_keeps_keys.
Qed.

End ActiveInvariant.

(** C4: from a document whose [active], when not empty, names a key of
    [vaults], every document that add, remove, set-active, set-workdir or
    discover --merge hands to [save_registry] has the same property; and
    removing the active vault succeeds, leaves [active] empty and the name
    out of [vaults]. *)
Theorem registry_commands_keep_active_valid
    (h : host) (py_str : Json.json -> string) (registry : Json.dict) :
  Registry.active_ok registry = true ->
  (forall now args o r',
     Registry.cmd_add h registry now args = Ok o ->
     Registry.saved o = Some r' -> Registry.active_ok r' = true)
  /\ (forall name r',
        Registry.saved (Registry.cmd_remove registry name) = Some r' ->
        Registry.active_ok r' = true)
  /\ (forall name r',
        Registry.saved (Registry.cmd_set_active registry name) = Some r' ->
        Registry.active_ok r' = true)
  /\ (forall now args o r',
        Registry.cmd_set_workdir h registry now args = Ok o ->
        Registry.saved o = Some r' -> Registry.active_ok r' = true)
  /\ (forall clock found args r',
        Registry.saved
          (Discovery.cmd_discover_merge h py_str registry clock found args)
        = Some r' ->
        Registry.active_ok r' = true)
  /\ (forall name,
        PyStr.truthy name = true ->
        Json.dict_get "active" registry = Json.JStr name ->
        exists r',
          Registry.saved (Registry.cmd_remove registry name) = Some r'
          /\ Json.dict_get "active" r' = Json.JStr ""%string
          /\ Json.dict_mem name (Registry.vaults_of r') = false).
Proof.
  intros Hok. repeat split.
  - intros now args o r'. now apply cmd_add_keeps.
  - intros name r'. now apply cmd_remove_keeps.
  - intros name r'. now apply cmd_set_active_keeps.
  - intros now args o r'. now apply cmd_set_workdir_keeps.
  - intros clock found args r'. now apply cmd_discover_merge_keeps.
  - intros name. now apply cmd_remove_active.
Qed.

Lemma registry_commands_keep_active_valid_witness :
  Registry.active_ok Sample.registry = true
  /\ exists r',
       Registry.saved (Registry.cmd_remove Sample.registry "work") = Some r'
       /\ Json.dict_get "active" r' = Json.JStr ""%string
       /\ Json.dict_mem "work" (Registry.vaults_of r') = false.
Proof.
  split; [reflexivity|].
  apply (registry_commands_keep_active_valid Sample.bare Sample.py_str
           Sample.registry eq_refl); reflexivity.
Defined.

(** ** Merging discovered vaults *)

Section MergeFacts.
Import Json Registry Discovery.
Variable py_str : json -> string.


Lemma merge_step_skip (h : host) (vaults : dict) (clock : nat)
    (diag : list string) (e : entry string) :
  dict_mem (e_name e) vaults = true ->
  merge_step h py_str false (vaults, clock, diag) e
  = (vaults, clock,
     diag ++ (if equals_str (existing_path (e_name e) vaults) (e_path e)
              then [] else [skip_message (e_name e)])).
Proof.
  intros Hin. unfold merge_step. rewrite Hin. simpl.
  destruct (equals_str _ _); [now rewrite app_nil_r|reflexivity].
Qed.

Lemma merge_step_write (h : host) (force : bool) (vaults : dict)
    (clock : nat) (diag : list string) (e : entry string) :
  dict_mem (e_name e) vaults && negb force = false ->
  merge_step h py_str force (vaults, clock, diag) e
  = (dict_set (e_name e)
       (vault_record (e_path e) (existing_workdir py_str (e_name e) vaults)
          (e_source e) (utc_now_iso_z h clock)) vaults,
     S clock, diag).
Proof. intros Hw. unfold merge_step. now rewrite Hw. Qed.


Lemma existing_workdir_new (name : string) (vaults : dict) :
  dict_mem name vaults = false -> existing_workdir py_str name vaults = ""%string.
Proof.
  rewrite dict_mem_find. unfold existing_workdir.
  now destruct (dict_find name vaults).
Qed.

(** Without [--force], a merge leaves every record that was there as it
    was. *)
Lemma merge_keeps_records (h : host) (found : list (entry string))
    (st : dict * nat * list string) (k : string) :
  dict_mem k (fst (fst st)) = true ->
  dict_find k (fst (fst (merge h py_str false found st)))
  = dict_find k (fst (fst st)).
Proof.
  unfold merge. revert st.
  induction found as [|e r IH]; intros st Hk; [reflexivity|].
  simpl. rewrite IH by now apply merge_step_keeps_keys.
  destruct st as [[vaults clock] diag]. simpl in Hk.
  destruct (dict_mem (e_name e) vaults) eqn:M.
  - now rewrite merge_step_skip.
  - rewrite merge_step_write by now rewrite M.
    simpl. rewrite dict_find_set.
    destruct (String.eqb_spec (e_name e) k) as [E|_]; [|reflexivity].
    rewrite E in M. congruence.
Qed.

(** After a merge every discovered name is registered. *)
Lemma merge_registers (h : host) (force : bool) (found : list (entry string))
    (st : dict * nat * list string) (e : entry string) :
  In e found ->
  dict_mem (e_name e) (fst (fst (merge h py_str force found st))) = true.
Proof.
  unfold merge. revert st.
  induction found as [|e' r IH]; intros st Hin; [destruct Hin|].
  destruct Hin as [->|Hin]; simpl.
  - apply (merge_keeps_keys h py_str force r).
    destruct st as [[vaults clock] diag].
    destruct (dict_mem (e_name e) vaults && negb force) eqn:W.
    + apply andb_prop in W. destruct W as [M Hf].
      apply (merge_step_keeps_keys h py_str force (vaults, clock, diag) e).
      exact M.
    + rewrite merge_step_write by exact W. simpl.
      now rewrite dict_mem_set, String.eqb_refl.
  - now apply IH.
Qed.


End MergeFacts.

Section MergeOrder.
Import Json Registry Discovery.
Variable h : host.
Variable py_str : json -> string.

Lemma merge_step_other_name (force : bool) (st : dict * nat * list string)
    (e : entry string) (k : string) :
  e_name e <> k ->
  dict_find k (fst (fst (merge_step h py_str force st e)))
  = dict_find k (fst (fst st)).
Proof.
  intros Hk. destruct st as [[vaults clock] diag]. unfold merge_step.
  destruct (dict_mem (e_name e) vaults && negb force).
  - now destruct (negb _).
  - simpl. rewrite dict_find_set.
    destruct (String.eqb_spec (e_name e) k); [contradiction|reflexivity].
Qed.

Lemma merge_other_names (force : bool) (found : list (entry string))
    (st : dict * nat * list string) (k : string) :
  (forall e, In e found -> e_name e <> k) ->
  dict_find k (fst (fst (merge h py_str force found st)))
  = dict_find k (fst (fst st)).
Proof.
  unfold merge. revert st.
  induction found as [|e r IH]; intros st Hall; [reflexivity|].
  simpl. rewrite IH by (intros e' He'; apply Hall; now right).
  apply merge_step_other_name. apply Hall. now left.
Qed.

Lemma merge_app (force : bool) (before after : list (entry string))
    (st : dict * nat * list string) :
  merge h py_str force (before ++ after) st
  = merge h py_str force after (merge h py_str force before st).
Proof. unfold merge. apply fold_left_app. Qed.

Lemma merge_cons (force : bool) (e : entry string) (rest : list (entry string))
    (st : dict * nat * list string) :
  merge h py_str force (e :: rest) st
  = merge h py_str force rest (merge_step h py_str force st e).
Proof. reflexivity. Qed.

End MergeOrder.

(** ** Merging entries whose names are of any type *)

Section AnyName.
Import Json Registry Discovery.
Variable h : host.
Variable py_str : json -> string.






Lemma of_dict_inj (v w : dict) : of_dict v = of_dict w -> v = w.
Proof.
  revert w. induction v as [|[k x] r IH]; intros [|[k' x'] r'];
    try discriminate; [reflexivity|].
  simpl. intros [= -> -> E]. now rewrite (IH r' E).
Qed.








(** *** What the loop over string names keeps *)







(** *** Keys that are all different *)







End AnyName.




Section MergeFrame.
Import Json Registry Discovery.
Variable h : host.
Variable py_str : json -> string.






End MergeFrame.




(** ** Discovery *)

(** C3, as stated, fails: from the document
    [{"vaults":{"Notes":{"path":"/home/u/notes"}}}] no entry is named
    [Notes]. *)
Lemma extract_scenario_not_named_by_key :
  JsonText.loads Sample.config_text = Some (Sample.config_doc "Notes")
  /\ ~ exists path,
         In (Ok (Json.JStr "Notes", path))
            (Discovery.extract_vault_entries (Sample.config_doc "Notes")).
Proof.
  split; [reflexivity|].
  intros (path & [H|[]]). discriminate H.
Qed.

(** C3, amended: the document
    [{"vaults":{"Notes":{"path":"/home/u/notes"}}}] yields exactly one entry,
    with path [/home/u/notes] and named [notes], the last segment of the
    path; the key of the object plays no part.  [discover_vaults] returns it
    with the file as its source. *)
Theorem extract_scenario_named_by_path :
  JsonText.loads Sample.config_text = Some (Sample.config_doc "Notes")
  /\ (forall key : string,
        Discovery.extract_vault_entries (Sample.config_doc key)
        = [Ok (Json.JStr "notes", Json.JStr "/home/u/notes")]%string)
  /\ Discovery.discover_vaults Sample.config_host ""
     = Ok [ {| Registry.e_name := Json.JStr "notes";
               Registry.e_path := "/home/u/notes";
               Registry.e_source := Sample.config_file |} ]%string.
Proof.
  repeat split; reflexivity.
Qed.

Section DiscoverFacts.
Import Json Registry Discovery.
Variable h : host.

Lemma mem_In (x : string) (l : list string) : PyStr.mem x l = true <-> In x l.
Proof.
  unfold PyStr.mem. rewrite existsb_exists. split.
  - intros (y & Hy & E). apply String.eqb_eq in E. now subst.
  - intros Hx. exists x. split; [exact Hx|apply String.eqb_refl].
Qed.

Lemma scan_entries_inv (files : list string) (source : string)
    (yielded : list (res (json * json)))
    (st st' : list (entry json) * list string) :
  In source files -> scan_inv files st ->
  scan_entries h source yielded st = Ok st' -> scan_inv files st'.
Proof.
  intros Hs. revert st.
  induction yielded as [|[[name vault_path]|e] rest IH]; intros st Hinv; simpl.
  - now intros [= <-].
  - destruct vault_path; try discriminate.
    destruct (PosixPath.expanduser (home_of h) s) as [resolved|]; [|discriminate].
    simpl. destruct (PyStr.mem resolved (snd st)) eqn:M; [now apply IH|].
    apply IH. destruct Hinv as (Hnd & Hseen & Hsrc).
    assert (Hnew : ~ In resolved (map e_path (fst st))).
    { intros Hin. apply Hseen in Hin. apply mem_In in Hin. congruence. }
    repeat split; simpl.
    + rewrite map_app. simpl. apply NoDup_app; [exact Hnd|repeat constructor; auto|].
      intros a Ha [<-|[]]. contradiction.
    + intros [<-|Hp]; rewrite map_app; apply in_or_app; simpl; [now right; left|].
      left. now apply Hseen.
    + rewrite map_app. intros Hp. apply in_app_or in Hp.
      destruct Hp as [Hp|[<-|[]]]; [right; now apply Hseen|now left].
    + intros e He. apply in_app_or in He.
      destruct He as [He|[<-|[]]]; [now apply Hsrc|exact Hs].
  - discriminate.
Qed.

Lemma scan_files_inv (files todo : list string)
    (st st' : list (entry json) * list string) :
  incl todo files -> scan_inv files st ->
  scan_files h todo st = Ok st' -> scan_inv files st'.
Proof.
  revert st. induction todo as [|path rest IH]; intros st Hincl Hinv; simpl.
  - now intros [= <-].
  - assert (Hrest : incl rest files) by (intros x Hx; apply Hincl; now right).
    destruct (negb (path_exists h path)); [now apply IH|].
    destruct (read_text h path) as [text|e];
      [|destruct (is_os_or_json_error e); [now apply IH|discriminate]].
    destruct (json_loads h text) as [data|e];
      [|destruct (is_os_or_json_error e); [now apply IH|discriminate]].
    destruct (scan_entries h path (extract_vault_entries data) st)
      as [st1|] eqn:E; [|discriminate].
    simpl. apply IH; [exact Hrest|].
    apply (scan_entries_inv files path (extract_vault_entries data) st st1); auto.
    apply Hincl. now left.
Qed.

(** What [discover_vaults] does guarantee: the returned paths are pairwise
    different texts, and every source is one of the candidate files. *)
Lemma discover_in_distinct (files : list string) (found : list (entry json)) :
  discover_in h files = Ok found ->
  NoDup (map e_path found) /\ forall e, In e found -> In (e_source e) files.
Proof.
  unfold discover_in.
  destruct (scan_files h files ([], [])) as [st|] eqn:E; [|discriminate].
  simpl. intros [= <-].
  destruct (scan_files_inv files files ([], []) st) as (Hnd & _ & Hsrc); auto.
  - apply incl_refl.
  - repeat split; simpl; try constructor; tauto.
Qed.

End DiscoverFacts.

(** C8, where the code departs from it: a configuration file that lists one
    vault twice, once as [/home/u/notes] and once as [/home/u/docs/../notes].
    Both paths resolve to [/home/u/notes], yet [discover_vaults] compares the
    texts [str(Path(p).expanduser())] and returns both entries. *)
Theorem discover_keeps_unresolved_duplicate :
  Discovery.discover_vaults Sample.detour_host ""
  = Ok [ {| Registry.e_name := Json.JStr "notes";
            Registry.e_path := "/home/u/notes";
            Registry.e_source := Sample.config_file |};
         {| Registry.e_name := Json.JStr "notes";
            Registry.e_path := "/home/u/docs/../notes";
            Registry.e_source := Sample.config_file |} ]%string
  /\ resolve Sample.detour_host "/home/u/notes"
     = resolve Sample.detour_host "/home/u/docs/../notes".
Proof.
  split; reflexivity.
Qed.

(** ** The command gate *)

Section GateFacts.
Import Json Cli.
Variable h : host.


Lemma is_none_to_iso (v : json) : is_none (_to_iso_jsonable v) = is_none v.
Proof. now destruct v. Qed.






(** It returns whenever [json.loads] returns or raises [JSONDecodeError]. *)
Lemma safe_parse_returns (text : string) :
  (forall x, json_loads h text = Raise x -> is_json_error x = true) ->
  exists p, _safe_parse_json h text = Ok p.
Proof.
  intros H. unfold _safe_parse_json. destruct (negb (_is_json_text text)); eauto.
  destruct (json_loads h text) as [v|e] eqn:E; eauto.
  rewrite (H e eq_refl). eauto.
Qed.

(** No reason for blocking is the empty text, so the truth test on the
    reason never lets a classified command through. *)
Lemma is_destructive_reason (command : list string) (force_delete : bool)
    (reason : string) :
  _is_destructive command force_delete = Some reason ->
  PyStr.truthy reason = true.
Proof.
  destruct command as [|primary flags]; [discriminate|]. unfold _is_destructive.
  repeat match goal with
         | |- context [if ?b then _ else _] => destruct b
         end; intros [= <-]; reflexivity.
Qed.




(** [run_obsidian] once the binary is found. *)
Lemma run_obsidian_resolved (verb : string) (flags : list string)
    (vault binary resolved : string) (force_delete parse_output : bool)
    (now : nat) :
  resolve_binary h (_load_binary h binary) = Some resolved ->
  PyStr.truthy resolved = true ->
  let given := verb :: flags in
  let has_vault_token :=
    existsb (fun part => PyStr.startswith part "vault=") given in
  let command_list :=
    if _command_needs_vault given && PyStr.truthy vault && negb has_vault_token
    then ("vault=" ++ vault)%string :: given else given in
  let vault' :=
    if _command_needs_vault given && negb (PyStr.truthy vault) && has_vault_token
    then ""%string else vault in
  run_obsidian h given vault binary force_delete parse_output now
  = match _is_destructive command_list force_delete with
    | Some reason =>
        {| result :=
             Ok (refusal h command_list
                   ("Refusing destructive operation (" ++ reason
                    ++ ") without --force-delete.")
                   resolved vault' now);
           spawned := [] |}
    | None =>
        {| result :=
             bind (subprocess_run h (resolved :: command_list))
               (report h command_list resolved vault' parse_output now);
           spawned := [resolved :: command_list] |}
    end.
Proof.
  intros Hres Hb. cbv zeta. unfold run_obsidian. rewrite Hres, Hb.
  cbv zeta. cbn [negb].
  destruct (_is_destructive _ force_delete) as [reason|] eqn:D.
  - now rewrite (is_destructive_reason _ _ _ D).
  - reflexivity.
Qed.

Lemma run_obsidian_shape (command : list string) (vault binary : string)
    (force_delete parse_output : bool) (now : nat) :
  (exists cmd msg b,
     run_obsidian h command vault binary force_delete parse_output now
     = {| result := Ok (refusal h cmd msg b vault now); spawned := [] |}
     /\ cmd = command)
  \/ (exists verb flags resolved,
        command = verb :: flags
        /\ resolve_binary h (_load_binary h binary) = Some resolved
        /\ PyStr.truthy resolved = true).
Proof.
  unfold run_obsidian. destruct command as [|verb flags].
  - left. now exists [], "No command provided."%string, binary.
  - destruct (resolve_binary h (_load_binary h binary)) as [resolved|] eqn:R.
    + destruct (PyStr.truthy resolved) eqn:T.
      * right. now exists verb, flags, resolved.
      * left. simpl. eexists _, _, _. split; reflexivity.
    + left. eexists _, _, _. split; reflexivity.
Qed.

(** The two ways [run_obsidian] goes: it refuses, with no call of
    [subprocess.run], or it makes one call and reports on it. *)
Lemma run_obsidian_cases (command : list string) (vault binary : string)
    (force_delete parse_output : bool) (now : nat) :
  (spawned (run_obsidian h command vault binary force_delete parse_output now)
   = []
   /\ exists cmd msg b v,
        result (run_obsidian h command vault binary force_delete
                  parse_output now)
        = Ok (refusal h cmd msg b v now))
  \/ (exists resolved command_list v,
        resolve_binary h (_load_binary h binary) = Some resolved
        /\ PyStr.truthy resolved = true
        /\ command_list
           = (if _command_needs_vault command && PyStr.truthy vault
                 && negb (existsb (fun part => PyStr.startswith part "vault=")
                            command)
              then ("vault=" ++ vault)%string :: command else command)
        /\ _is_destructive command_list force_delete = None
        /\ spawned (run_obsidian h command vault binary force_delete
                      parse_output now) = [resolved :: command_list]
        /\ result (run_obsidian h command vault binary force_delete
                     parse_output now)
           = bind (subprocess_run h (resolved :: command_list))
               (report h command_list resolved v parse_output now)).
Proof.
  destruct (run_obsidian_shape command vault binary force_delete parse_output now)
    as [(cmd & msg & b & -> & _)|(verb & flags & resolved & -> & R & T)].
  - left. split; [reflexivity|]. now exists cmd, msg, b, vault.
  - rewrite (run_obsidian_resolved verb flags vault binary resolved
               force_delete parse_output now R T).
    cbv zeta. destruct (_is_destructive _ force_delete) as [reason|] eqn:D.
    + left. split; [reflexivity|]. eexists _, _, _, _. reflexivity.
    + right. eexists resolved, _, _. repeat split; try eassumption; reflexivity.
Qed.

End GateFacts.

Section RunFacts.
Import Json Cli.
Variable h : host.






(** With no vault name given, [delete] is refused unless forced. *)
Lemma gate_refuses_delete (flags : list string) (binary resolved : string)
    (parse_output : bool) (now : nat) :
  resolve_binary h (_load_binary h binary) = Some resolved ->
  PyStr.truthy resolved = true ->
  spawned (run_obsidian h ("delete" :: flags) "" binary false parse_output now) = []
  /\ exists e,
       result (run_obsidian h ("delete" :: flags) "" binary false
                 parse_output now) = Ok e
       /\ ok e = false /\ exit_code e = 1%Z.
Proof.
  intros Hres Hb. unfold run_obsidian. rewrite Hres, Hb. simpl.
  destruct (PyStr.mem "permanent" flags); (split; [reflexivity|]);
    eexists; repeat split.
Qed.

(** With a vault name given and no [vault=] token in the command, the
    gate looks at the inserted token and lets [delete] through. *)
Lemma gate_passes_delete_behind_vault (flags : list string)
    (vault binary resolved : string) (parse_output : bool) (now : nat) :
  resolve_binary h (_load_binary h binary) = Some resolved ->
  PyStr.truthy resolved = true ->
  PyStr.truthy vault = true ->
  existsb (fun part => PyStr.startswith part "vault=") flags = false ->
  PyStr.endswith ("vault=" ++ vault) ":delete" = false ->
  spawned (run_obsidian h ("delete" :: flags) vault binary false parse_output now)
  = [resolved :: ("vault=" ++ vault)%string :: "delete"%string :: flags].
Proof.
  intros Hres Hb Hv Hflags Hend. unfold run_obsidian. rewrite Hres, Hb.
  cbv zeta.
  change (_command_needs_vault ("delete"%string :: flags)) with true.
  change (existsb (fun part => PyStr.startswith part "vault=")
            ("delete"%string :: flags))
    with (existsb (fun part => PyStr.startswith part "vault=") flags).
  rewrite Hv, Hflags. cbn [negb andb].
  unfold _is_destructive. rewrite Hend. reflexivity.
Qed.

End RunFacts.

(** C1, where the code departs from it: [delete] with a vault name.  The
    command alone is classified as destructive, yet [run_obsidian] puts
    [vault=Notes] in front before it classifies, takes that token for the
    primary verb and starts the child process. *)
Theorem gate_misses_delete_behind_vault_token :
  Cli._is_destructive ["delete"; "file=a.md"]%string false = Some "delete"%string
  /\ Cli.spawned (Cli.run_obsidian Sample.bare ["delete"; "file=a.md"]%string
                    "Notes" "" false true 0)
     = [["/usr/bin/obsidian"; "vault=Notes"; "delete"; "file=a.md"]]%string
  /\ exists e,
       Cli.result (Cli.run_obsidian Sample.bare ["delete"; "file=a.md"]%string
                     "Notes" "" false true 0) = Ok e
       /\ Cli.ok e = true
       /\ Cli.exit_code e = 0%Z
       /\ Cli.command e = ["vault=Notes"; "delete"; "file=a.md"]%string.
Proof.
  split; [reflexivity|]. split; [reflexivity|].
  eexists. split; [reflexivity|]. repeat split.
Qed.



(** * Further properties of the executor *)





(** X4: the arguments handed to [subprocess.run] are the resolved binary
    followed by the caller's command, unchanged and in order; the one thing
    that may be put between them is a single [vault=<name>] token, and that
    only when a vault name was given, the verb is not one of the
    vault-agnostic ones and no token of the command starts with
    [vault=]. *)
Theorem child_arguments_end_with_the_command
    (h : host) (command : list string) (vault binary : string)
    (force_delete parse_output : bool) (now : nat) :
  Cli.spawned (Cli.run_obsidian h command vault binary force_delete
                 parse_output now) = []
  \/ exists resolved,
       Cli.resolve_binary h (Cli._load_binary h binary) = Some resolved
       /\ Cli.spawned (Cli.run_obsidian h command vault binary force_delete
                         parse_output now)
          = [resolved ::
             (if Cli._command_needs_vault command && PyStr.truthy vault
                 && negb (existsb (fun part => PyStr.startswith part "vault=")
                            command)
              then ("vault=" ++ vault)%string :: command
              else command)].
Proof.
  destruct (run_obsidian_cases h command vault binary force_delete
              parse_output now)
    as [(S & _)|(resolved & cl & v & B & _ & -> & _ & S & _)].
  - now left.
  - right. now exists resolved.
Qed.

(** X5: when no vault token is put in front (no vault name given, or a
    [vault=] token already in the command), every command that
    [_is_destructive] classifies is refused without [--force-delete]:
    [subprocess.run] is not called, an envelope is returned with [ok]
    false and exit code 1, and its [stderr] names the reason, which is
    never empty. *)
Theorem classified_command_is_refused
    (h : host) (verb : string) (flags : list string)
    (vault binary resolved reason : string) (parse_output : bool) (now : nat) :
  Cli.resolve_binary h (Cli._load_binary h binary) = Some resolved ->
  PyStr.truthy resolved = true ->
  PyStr.truthy vault = false
  \/ existsb (fun part => PyStr.startswith part "vault=") (verb :: flags) = true ->
  Cli._is_destructive (verb :: flags) false = Some reason ->
  PyStr.truthy reason = true
  /\ Cli.spawned (Cli.run_obsidian h (verb :: flags) vault binary false
                    parse_output now) = []
  /\ exists e,
       Cli.result (Cli.run_obsidian h (verb :: flags) vault binary false
                     parse_output now) = Ok e
       /\ Cli.ok e = false
       /\ Cli.exit_code e = 1%Z
       /\ Cli.stderr e
          = ("Refusing destructive operation (" ++ reason
             ++ ") without --force-delete.")%string
       /\ Cli.command e = verb :: flags.
Proof.
  intros R T Hv D.
  split; [exact (is_destructive_reason _ _ _ D)|].
  rewrite (run_obsidian_resolved h verb flags vault binary resolved
             false parse_output now R T).
  cbv zeta.
  assert (E : Cli._command_needs_vault (verb :: flags) && PyStr.truthy vault
              && negb (existsb (fun part => PyStr.startswith part "vault=")
                         (verb :: flags)) = false).
  { destruct Hv as [Hv|Hv]; rewrite Hv; [apply andb_false_iff; left|];
      now rewrite ?andb_false_r. }
  rewrite E, D. split; [reflexivity|]. eexists. split; [reflexivity|].
  now repeat split.
Qed.

Lemma classified_command_is_refused_witness :
  (Cli.resolve_binary Sample.bare (Cli._load_binary Sample.bare "")
   = Some "/usr/bin/obsidian"%string
   /\ PyStr.truthy "/usr/bin/obsidian" = true
   /\ existsb (fun part => PyStr.startswith part "vault=")
        ["folder:delete"; "vault=Notes"; "path=old"]%string = true
   /\ Cli._is_destructive ["folder:delete"; "vault=Notes"; "path=old"]%string false
      = Some "command-folder:delete"%string)
  /\ Cli.spawned (Cli.run_obsidian Sample.bare
                    ["folder:delete"; "vault=Notes"; "path=old"]%string
                    "Notes" "" false true 0) = []
  /\ exists e,
       Cli.result (Cli.run_obsidian Sample.bare
                     ["folder:delete"; "vault=Notes"; "path=old"]%string
                     "Notes" "" false true 0) = Ok e
       /\ Cli.stderr e
          = "Refusing destructive operation (command-folder:delete) without --force-delete."%string.
Proof.
  split; [repeat split|].
  destruct (classified_command_is_refused Sample.bare "folder:delete"
              ["vault=Notes"; "path=old"]%string "Notes" "" "/usr/bin/obsidian"
              "command-folder:delete" true 0 eq_refl eq_refl
              (or_intror eq_refl) eq_refl)
    as (_ & S & e & R & _ & _ & E & _).
  split; [exact S|]. now exists e.
Defined.

(** * Further properties of the registry *)

Section RegistryFacts.
Import Json Registry.



Lemma vaults_of_set_active (v : json) (registry : dict) :
  vaults_of (dict_set "active" v registry) = vaults_of registry.
Proof. unfold vaults_of, dict_get_default. now rewrite dict_find_set. Qed.

End RegistryFacts.



Section JoinFacts.
Import PyStr.
Variable sep : ascii.

Lemma split_l_pieces_no_sep (l : list ascii) :
  Forall (Forall (fun c => c <> sep)) (split_l sep l).
Proof.
  induction l as [|c r IH]; simpl; [repeat constructor|].
  destruct (Ascii.eqb_spec c sep) as [->|Hc]; [now constructor|].
  destruct (split_l sep r) as [|piece rest]; [repeat constructor; auto|].
  inversion IH; subst. constructor; [now constructor|assumption].
Qed.

Lemma split_l_pieces_chars (l piece : list ascii) (c : ascii) :
  In piece (split_l sep l) -> In c piece -> In c l.
Proof.
  revert piece. induction l as [|a r IH]; simpl; intros piece Hp Hc.
  - destruct Hp as [<-|[]]. destruct Hc.
  - destruct (Ascii.eqb a sep).
    + destruct Hp as [<-|Hp]; [destruct Hc|]. right. now apply (IH piece).
    + destruct (split_l sep r) as [|hd tl] eqn:E.
      * destruct Hp as [<-|[]]. destruct Hc as [<-|[]]. now left.
      * destruct Hp as [<-|Hp].
        -- destruct Hc as [<-|Hc]; [now left|]. right. apply (IH hd); [now left|exact Hc].
        -- right. apply (IH piece); [now right|exact Hc].
Qed.

(** Splitting what was joined gives the pieces back. *)
Lemma split_l_join_l (parts : list (list ascii)) :
  parts <> [] -> Forall (Forall (fun c => c <> sep)) parts ->
  split_l sep (join_l [sep] parts) = parts.
Proof.
  induction parts as [|p rest IH]; [contradiction|]. intros _ Hall.
  inversion Hall as [|? ? Hp Hrest]; subst.
  destruct rest as [|q rest'].
  - simpl. now apply split_l_no_sep.
  - change (join_l [sep] (p :: q :: rest'))
      with (p ++ sep :: join_l [sep] (q :: rest')).
    rewrite split_l_app_sep, (split_l_no_sep sep p Hp), IH; [reflexivity| |assumption].
    discriminate.
Qed.

Lemma join_l_chars (parts : list (list ascii)) (c : ascii) :
  In c (join_l [sep] parts) -> c = sep \/ exists p, In p parts /\ In c p.
Proof.
  induction parts as [|p rest IH]; [intros []|].
  destruct rest as [|q rest'].
  - simpl. intros Hc. right. exists p. split; [now left|exact Hc].
  - change (join_l [sep] (p :: q :: rest'))
      with (p ++ sep :: join_l [sep] (q :: rest')).
    intros Hc. apply in_app_or in Hc. destruct Hc as [Hc|[<-|Hc]].
    + right. exists p. split; [now left|exact Hc].
    + now left.
    + destruct (IH Hc) as [->|(x & Hx & Hcx)]; [now left|].
      right. exists x. split; [now right|exact Hcx].
Qed.

End JoinFacts.

Section NormalForm.
Import PyStr Workdir.

Lemma replace_l_fixed (a b : ascii) (l : list ascii) :
  Forall (fun c => c <> a) l -> replace_l a b l = l.
Proof.
  induction 1 as [|c r Hc _ IH]; [reflexivity|].
  simpl. destruct (Ascii.eqb_spec c a); [contradiction|].
  f_equal. exact IH.
Qed.

Lemma replace_l_gone (l : list ascii) :
  Forall (fun c => c <> backslash) (replace_l backslash slash l).
Proof.
  induction l as [|c r IH]; [constructor|].
  simpl. constructor; [|exact IH].
  destruct (Ascii.eqb_spec c backslash); [discriminate|assumption].
Qed.

(** What [normalize_workdir] accepts comes out as a clean relative path. *)
Lemma normalize_workdir_clean (raw w : string) :
  normalize_workdir raw = Ok w -> w <> ""%string ->
  split slash w = filter kept (segments (strip raw))
  /\ has_dotdot_segment (strip raw) = false
  /\ replace backslash slash w = w.
Proof.
  rewrite normalize_workdir_segments.
  destruct (has_dotdot_segment (strip raw)) eqn:D; [discriminate|].
  intros [= <-] Hne.
  set (parts := filter kept (segments (strip raw))) in *.
  assert (Hsub : forall p, In p parts ->
                   exists piece,
                     p = str piece
                     /\ In piece (segments_l (chars (strip raw)))).
  { intros p Hp. apply filter_In in Hp. destruct Hp as [Hp _].
    unfold segments, split, replace in Hp. rewrite chars_str in Hp.
    apply in_map_iff in Hp. destruct Hp as (piece & <- & Hpiece).
    now exists piece. }
  assert (Hnosep : Forall (Forall (fun c => c <> slash)) (map chars parts)).
  { apply Forall_forall. intros x Hx. apply in_map_iff in Hx.
    destruct Hx as (p & <- & Hp). destruct (Hsub p Hp) as (piece & -> & Hpiece).
    rewrite chars_str.
    pose proof (split_l_pieces_no_sep slash
                  (replace_l backslash slash (chars (strip raw)))) as Hall.
    rewrite Forall_forall in Hall. now apply Hall. }
  assert (Hparts : parts <> []).
  { intros E. apply Hne. now rewrite E. }
  split; [|split; [reflexivity|]].
  - unfold split, join. rewrite chars_str.
    change (chars "/") with [slash].
    rewrite split_l_join_l; [|destruct parts; [contradiction|discriminate]|exact Hnosep].
    rewrite map_map. rewrite <- (map_id parts) at 2.
    apply map_ext. intros p. apply str_chars.
  - unfold replace, join. rewrite chars_str. f_equal.
    change (chars "/") with [slash].
    apply replace_l_fixed. apply Forall_forall. intros c Hc.
    apply join_l_chars in Hc. destruct Hc as [->|(x & Hx & Hcx)]; [discriminate|].
    apply in_map_iff in Hx. destruct Hx as (p & <- & Hp).
    destruct (Hsub p Hp) as (piece & -> & Hpiece). rewrite chars_str in Hcx.
    pose proof (replace_l_gone (chars (strip raw))) as Hall.
    rewrite Forall_forall in Hall. apply Hall.
    now apply (split_l_pieces_chars slash _ piece c Hpiece).
Qed.

End NormalForm.

(** X7: a working directory that [normalize_workdir] accepts and that is not
    the vault root is a clean relative path: it has no backslash, and each of
    its segments between slashes is a name, that is neither empty (so no
    leading, trailing or doubled slash) nor [.] nor [..]. *)
Theorem normalize_workdir_gives_clean_path (raw w : string) :
  Workdir.normalize_workdir raw = Ok w ->
  w <> ""%string ->
  PyStr.replace Workdir.backslash Workdir.slash w = w
  /\ forall segment,
       In segment (PyStr.split Workdir.slash w) ->
       segment <> ""%string /\ segment <> "."%string /\ segment <> ".."%string.
Proof.
  intros Hw Hne.
  destruct (normalize_workdir_clean raw w Hw Hne) as (Hs & Hd & Hr).
  split; [exact Hr|]. intros segment Hin. rewrite Hs in Hin.
  apply filter_In in Hin. destruct Hin as [Hin Hk].
  repeat split; intros ->; try discriminate Hk.
  unfold Workdir.has_dotdot_segment in Hd.
  assert (Hex : existsb (fun part => String.eqb part "..")
                  (Workdir.segments (PyStr.strip raw)) = true).
  { apply existsb_exists. exists ".."%string. now split. }
  congruence.
Qed.

Lemma normalize_workdir_gives_clean_path_witness :
  (Workdir.normalize_workdir " \notes//./daily\ " = Ok "notes/daily"%string
   /\ "notes/daily"%string <> ""%string)
  /\ PyStr.replace Workdir.backslash Workdir.slash "notes/daily"
     = "notes/daily"%string
  /\ forall segment,
       In segment (PyStr.split Workdir.slash "notes/daily") ->
       segment <> ""%string /\ segment <> "."%string /\ segment <> ".."%string.
Proof.
  split; [split; [reflexivity|discriminate]|].
  apply (normalize_workdir_gives_clean_path " \notes//./daily\ " "notes/daily");
    [reflexivity|discriminate].
Defined.

(** X8: when [cmd_add] saves, the path was expanded and resolved, it is a
    vault root unless [--allow-missing], the name was free unless [--force],
    a working directory other than the root is an existing directory (or a
    missing one with [--allow-missing-workdir]); the record stored under the
    name holds the resolved path, the normalised working directory, the
    source ([manual] by default) and the clock reading; no other record
    changes, and [active] changes only with [--set-active]. *)
Theorem cmd_add_registers
    (h : host) (registry : Json.dict) (now : nat) (args : Registry.add_args)
    (o : Registry.outcome) (r' : Json.dict) :
  Registry.cmd_add h registry now args = Ok o ->
  Registry.saved o = Some r' ->
  exists vault_path workdir,
    Registry.expand_resolve h (Registry.add_path args) = Ok vault_path
    /\ Workdir.normalize_workdir (Registry.add_workdir args) = Ok workdir
    /\ (Registry.add_allow_missing args = true
        \/ Registry.is_vault_root h vault_path = true)
    /\ (Registry.add_force args = true
        \/ Json.dict_mem
             (PyStr.or_else (Registry.add_name args)
                (PosixPath.path_name vault_path))
             (Registry.vaults_of registry) = false)
    /\ (PyStr.truthy workdir = true ->
        (path_exists h (Registry.resolve_workdir_abs vault_path workdir) = true
         /\ path_is_dir h (Registry.resolve_workdir_abs vault_path workdir) = true)
        \/ (path_exists h (Registry.resolve_workdir_abs vault_path workdir) = false
            /\ Registry.add_allow_missing_workdir args = true))
    /\ Json.dict_find
         (PyStr.or_else (Registry.add_name args) (PosixPath.path_name vault_path))
         (Registry.vaults_of r')
       = Some (Registry.vault_record vault_path workdir
                 (PyStr.or_else (Registry.add_source args) "manual")
                 (utc_now_iso_z h now))
    /\ (forall k,
          k <> PyStr.or_else (Registry.add_name args)
                 (PosixPath.path_name vault_path) ->
          Json.dict_find k (Registry.vaults_of r')
          = Json.dict_find k (Registry.vaults_of registry))
    /\ Json.dict_get "active" r'
       = (if Registry.add_set_active args
          then Json.JStr (PyStr.or_else (Registry.add_name args)
                            (PosixPath.path_name vault_path))
          else Json.dict_get "active" registry)
    /\ Registry.exit_code o = 0%Z.
Proof.
  unfold Registry.cmd_add.
  destruct (Registry.expand_resolve h (Registry.add_path args))
    as [vault_path|] eqn:P; [|discriminate].
  simpl.
  destruct (negb (Registry.add_allow_missing args) && _) eqn:G1;
    [now intros [= <-]|].
  destruct (Json.dict_mem _ _ && _) eqn:G2; [now intros [= <-]|].
  destruct (Workdir.normalize_workdir (Registry.add_workdir args))
    as [workdir|[]] eqn:N; try discriminate; [|now intros [= <-]].
  destruct (PyStr.truthy workdir && negb _ && _) eqn:G3; [now intros [= <-]|].
  destruct (PyStr.truthy workdir && path_exists h _ && _) eqn:G4;
    [now intros [= <-]|].
  intros [= <-]. simpl. intros [= <-].
  exists vault_path, workdir. repeat split.
  - destruct (Registry.add_allow_missing args); [now left|right].
    simpl in G1. now destruct (Registry.is_vault_root h vault_path).
  - destruct (Registry.add_force args); [now left|right].
    rewrite andb_true_r in G2. exact G2.
  - intros T. rewrite T in G3, G4. simpl in G3, G4.
    destruct (path_exists h _); simpl in G3, G4.
    + left. split; [reflexivity|]. now destruct (path_is_dir h _).
    + right. split; [reflexivity|].
      now destruct (Registry.add_allow_missing_workdir args).
  - destruct (Registry.add_set_active args);
      rewrite ?vaults_of_set_active, vaults_of_set; apply dict_find_set_same.
  - intros k Hk.
    destruct (Registry.add_set_active args);
      rewrite ?vaults_of_set_active, vaults_of_set, dict_find_set;
      (destruct (String.eqb_spec
                   (PyStr.or_else (Registry.add_name args)
                      (PosixPath.path_name vault_path)) k) as [E|_];
       [now symmetry in E|reflexivity]).
  - destruct (Registry.add_set_active args); now rewrite !dict_get_set.
Qed.

Lemma cmd_add_registers_witness :
  exists o r',
    Registry.cmd_add Sample.good_host Sample.registry 3 Sample.add_notes = Ok o
    /\ Registry.saved o = Some r'
    /\ Json.dict_find "notes" (Registry.vaults_of r')
       = Some (Registry.vault_record "/w" "daily" "manual" (Sample.stamp 3)).
Proof.
  eexists _, _. split; [reflexivity|]. split; [reflexivity|].
  destruct (cmd_add_registers Sample.good_host Sample.registry 3 Sample.add_notes
              _ _ eq_refl eq_refl)
    as (vault_path & workdir & P & N & _ & _ & _ & F & _).
  injection P as <-. injection N as <-. exact F.
Defined.

(** X9: [cmd_remove] of a name that is not registered saves nothing and
    exits with 1; of a registered name it saves a document without that
    name, with every other record as it was, and with [active] as it was
    unless it was the removed name. *)
Theorem cmd_remove_forgets_one (registry : Json.dict) (name : string) :
  (Json.dict_mem name (Registry.vaults_of registry) = false ->
   Registry.saved (Registry.cmd_remove registry name) = None
   /\ Registry.exit_code (Registry.cmd_remove registry name) = 1%Z)
  /\ (Json.dict_mem name (Registry.vaults_of registry) = true ->
      exists r',
        Registry.saved (Registry.cmd_remove registry name) = Some r'
        /\ Registry.exit_code (Registry.cmd_remove registry name) = 0%Z
        /\ Json.dict_mem name (Registry.vaults_of r') = false
        /\ (forall k, k <> name ->
              Json.dict_find k (Registry.vaults_of r')
              = Json.dict_find k (Registry.vaults_of registry))
        /\ Json.dict_get "active" r'
           = (if Discovery.equals_str (Json.dict_get "active" registry) name
              then Json.JStr ""%string
              else Json.dict_get "active" registry)).
Proof.
  unfold Registry.cmd_remove. split; intros M; rewrite M; simpl; [now split|].
  rewrite dict_get_set. simpl.
  assert (V : forall r,
            Registry.vaults_of
              (match Json.dict_get "active" registry with
               | Json.JStr active =>
                   if String.eqb active name
                   then Json.dict_set "active" (Json.JStr "")
                          (Json.dict_set "vaults" (Json.JDict r) registry)
                   else Json.dict_set "vaults" (Json.JDict r) registry
               | _ => Json.dict_set "vaults" (Json.JDict r) registry
               end) = r).
  { intros r. destruct (Json.dict_get "active" registry);
      try apply vaults_of_set.
    destruct (String.eqb s name);
      now rewrite ?vaults_of_set_active, vaults_of_set. }
  eexists. split; [reflexivity|]. split; [reflexivity|]. rewrite V.
  split; [|split].
  - now rewrite dict_mem_pop, String.eqb_refl.
  - intros k Hk. apply dict_find_pop_other. congruence.
  - destruct (Json.dict_get "active" registry) eqn:A; simpl;
      rewrite ?dict_get_set; simpl; rewrite ?A; try reflexivity.
    destruct (String.eqb s name); rewrite !dict_get_set; simpl;
      [reflexivity|exact A].
Qed.

Lemma cmd_remove_forgets_one_witness :
  Json.dict_mem "home" (Registry.vaults_of Sample.registry) = true
  /\ exists r',
       Registry.saved (Registry.cmd_remove Sample.registry "home") = Some r'
       /\ Json.dict_mem "home" (Registry.vaults_of r') = false
       /\ Json.dict_get "active" r' = Json.JStr "work".
Proof.
  split; [reflexivity|].
  destruct (proj2 (cmd_remove_forgets_one Sample.registry "home") eq_refl)
    as (r' & S & _ & M & _ & A).
  exists r'. repeat split; assumption.
Defined.

(** X10: [cmd_set_active] of a name that is not registered saves nothing and
    exits with 1; of a registered name it saves the document with [active]
    set to that name and [vaults] untouched. *)
Theorem cmd_set_active_selects (registry : Json.dict) (name : string) :
  (Json.dict_mem name (Registry.vaults_of registry) = false ->
   Registry.saved (Registry.cmd_set_active registry name) = None
   /\ Registry.exit_code (Registry.cmd_set_active registry name) = 1%Z)
  /\ (Json.dict_mem name (Registry.vaults_of registry) = true ->
      exists r',
        Registry.saved (Registry.cmd_set_active registry name) = Some r'
        /\ Registry.exit_code (Registry.cmd_set_active registry name) = 0%Z
        /\ Json.dict_get "active" r' = Json.JStr name
        /\ Registry.vaults_of r' = Registry.vaults_of registry).
Proof.
  unfold Registry.cmd_set_active. split; intros M; rewrite M; simpl; [now split|].
  eexists. repeat split.
  - now rewrite dict_get_set.
  - apply vaults_of_set_active.
Qed.

Lemma cmd_set_active_selects_witness :
  Json.dict_mem "home" (Registry.vaults_of Sample.registry) = true
  /\ exists r',
       Registry.saved (Registry.cmd_set_active Sample.registry "home") = Some r'
       /\ Json.dict_get "active" r' = Json.JStr "home".
Proof.
  split; [reflexivity|].
  destruct (proj2 (cmd_set_active_selects Sample.registry "home") eq_refl)
    as (r' & S & _ & A & _).
  exists r'. split; assumption.
Defined.

(** X11: when [cmd_set_workdir] saves, the vault it worked on is the named
    one, or the active one when no name was given; its record was an object
    with a path; the saved record is that object with [workdir] set to the
    normalised working directory and [updated_at] to the clock reading, its
    other fields ([path], [source], ...) as they were; no other record and
    not [active] changed. *)
Theorem cmd_set_workdir_touches_one
    (h : host) (registry : Json.dict) (now : nat)
    (args : Registry.set_workdir_args) (o : Registry.outcome) (r' : Json.dict) :
  Registry.cmd_set_workdir h registry now args = Ok o ->
  Registry.saved o = Some r' ->
  exists name info workdir,
    Json.or_else (Json.JStr (Registry.sw_name args))
      (Json.dict_get_default "active" (Json.JStr "") registry)
    = Json.JStr name
    /\ PyStr.truthy name = true
    /\ Json.dict_find name (Registry.vaults_of registry) = Some (Json.JDict info)
    /\ Workdir.normalize_workdir (Registry.sw_workdir args) = Ok workdir
    /\ Json.dict_find name (Registry.vaults_of r')
       = Some (Json.JDict
                 (Json.dict_set "updated_at" (Json.JStr (utc_now_iso_z h now))
                    (Json.dict_set "workdir" (Json.JStr workdir) info)))
    /\ (forall field,
          field <> "workdir"%string -> field <> "updated_at"%string ->
          Json.dict_find field
            (Json.dict_set "updated_at" (Json.JStr (utc_now_iso_z h now))
               (Json.dict_set "workdir" (Json.JStr workdir) info))
          = Json.dict_find field info)
    /\ (forall k, k <> name ->
          Json.dict_find k (Registry.vaults_of r')
          = Json.dict_find k (Registry.vaults_of registry))
    /\ Json.dict_get "active" r' = Json.dict_get "active" registry
    /\ Registry.exit_code o = 0%Z.
Proof.
  unfold Registry.cmd_set_workdir.
  destruct (Json.or_else _ _) as [| | | |name| |] eqn:Nm; try now intros [= <-].
  destruct (PyStr.truthy name) eqn:T; simpl; [|now intros [= <-]].
  destruct (Json.dict_mem name (Registry.vaults_of registry)) eqn:M; simpl;
    [|now intros [= <-]].
  change (Json.dict_get_default name (Json.JDict [])
            (Registry.vaults_of registry))
    with (match Json.dict_find name (Registry.vaults_of registry) with
          | Some v => v
          | None => Json.JDict []
          end).
  destruct (Json.dict_find name (Registry.vaults_of registry))
    as [[| | | | | |info]|] eqn:F; try now intros [= <-].
  destruct (Json.dict_get_default "path" _ info) as [| | | |vault_path_str| |];
    try now intros [= <-].
  destruct (negb (PyStr.truthy vault_path_str)); [now intros [= <-]|].
  destruct (Workdir.normalize_workdir (Registry.sw_workdir args))
    as [workdir|[]] eqn:N; try discriminate; [|now intros [= <-]].
  destruct (Registry.expand_resolve h vault_path_str) as [vault_path|];
    [|discriminate].
  simpl.
  destruct (PyStr.truthy workdir && negb _ && _); [now intros [= <-]|].
  destruct (path_exists h _ && _); [now intros [= <-]|].
  intros [= <-]. simpl. intros [= <-].
  exists name, info, workdir. rewrite vaults_of_set.
  repeat split; try reflexivity; try assumption.
  - apply dict_find_set_same.
  - intros field H1 H2. rewrite !dict_find_set.
    destruct (String.eqb_spec "updated_at" field) as [E|_]; [now symmetry in E|].
    destruct (String.eqb_spec "workdir" field) as [E|_]; [now symmetry in E|].
    reflexivity.
  - intros k Hk. rewrite dict_find_set.
    destruct (String.eqb_spec name k) as [E|_]; [now symmetry in E|reflexivity].
  - now rewrite dict_get_set.
Qed.

Lemma cmd_set_workdir_touches_one_witness :
  exists o r',
    Registry.cmd_set_workdir Sample.good_host Sample.registry 5 Sample.set_today
    = Ok o
    /\ Registry.saved o = Some r'
    /\ Json.dict_find "work" (Registry.vaults_of r')
       = Some (Registry.vault_record "/home/u/work" "inbox/today" "manual"
                 (Sample.stamp 5))
    /\ Json.dict_get "active" r' = Json.JStr "work".
Proof.
  eexists _, _. split; [reflexivity|]. split; [reflexivity|].
  destruct (cmd_set_workdir_touches_one Sample.good_host Sample.registry 5
              Sample.set_today _ _ eq_refl eq_refl)
    as (name & info & workdir & Nm & _ & F & N & F' & _ & _ & A & _).
  injection Nm as <-. injection F as <-. injection N as <-.
  split; [exact F'|exact A].
Defined.

Section CommandFrames.
Import Json Registry Discovery.
Variable h : host.





Lemma cmd_discover_merge_saved (py_str : json -> string) (registry : dict)
    (clock : nat) (found : list (entry string)) (args : merge_args) :
  exists vaults diag,
    cmd_discover_merge h py_str registry clock found args
    = done (dict_set "vaults" (JDict vaults) registry)
        ("Merged " ++ NilEmpty.string_of_uint (Nat.to_uint (List.length found))
         ++ " vault(s)")%string diag.
Proof.
  unfold cmd_discover_merge.
  destruct (merge h py_str (m_force args) found (vaults_of registry, clock, []))
    as [[vaults c] diag].
  now exists vaults, diag.
Qed.

Lemma rewritten_other_keys (registry r' : dict) (k : string) :
  rewritten registry r' -> k <> "vaults"%string -> k <> "active"%string ->
  dict_find k r' = dict_find k registry.
Proof.
  intros (vaults & [->|[(active & ->)|(active & ->)]]) Hv Ha;
    rewrite !dict_find_set;
    repeat match goal with
           | |- context [String.eqb ?a k] =>
               destruct (String.eqb_spec a k) as [E|_]; [now symmetry in E|]
           end; reflexivity.
Qed.

Lemma cmd_add_rewrites (registry : dict) (now : nat) (args : add_args)
    (o : outcome) (r' : dict) :
  cmd_add h registry now args = Ok o -> saved o = Some r' ->
  rewritten registry r'.
Proof.
  unfold cmd_add.
  destruct (expand_resolve h (add_path args)) as [vault_path|]; [|discriminate].
  simpl.
  destruct (negb (add_allow_missing args) && _); [now intros [= <-]|].
  destruct (dict_mem _ _ && _); [now intros [= <-]|].
  destruct (normalize_workdir (add_workdir args)) as [workdir|[]];
    try discriminate; [|now intros [= <-]].
  destruct (PyStr.truthy workdir && negb _ && _); [now intros [= <-]|].
  destruct (PyStr.truthy workdir && path_exists h _ && _); [now intros [= <-]|].
  intros [= <-]. simpl. intros [= <-]. eexists.
  destruct (add_set_active args); [right; left; eexists|left]; reflexivity.
Qed.

Lemma cmd_remove_rewrites (registry : dict) (name : string) (r' : dict) :
  saved (cmd_remove registry name) = Some r' -> rewritten registry r'.
Proof.
  unfold cmd_remove. destruct (negb _); [discriminate|]. simpl.
  intros [= <-]. eexists.
  destruct (dict_get "active" _); try (left; reflexivity).
  destruct (String.eqb s name); [right; left; eexists|left]; reflexivity.
Qed.

Lemma cmd_set_active_rewrites (registry : dict) (name : string) (r' : dict) :
  saved (cmd_set_active registry name) = Some r' -> rewritten registry r'.
Proof.
  unfold cmd_set_active. destruct (negb _); [discriminate|]. simpl.
  intros [= <-]. exists []. right. right. now eexists.
Qed.

Lemma cmd_set_workdir_rewrites (registry : dict) (now : nat)
    (args : set_workdir_args) (o : outcome) (r' : dict) :
  cmd_set_workdir h registry now args = Ok o -> saved o = Some r' ->
  rewritten registry r'.
Proof.
  unfold cmd_set_workdir.
  destruct (or_else _ _); try now intros [= <-].
  destruct (negb (PyStr.truthy s)); [now intros [= <-]|].
  destruct (negb (dict_mem s (vaults_of registry))); [now intros [= <-]|].
  destruct (dict_get_default "path" _ _); try now intros [= <-].
  destruct (negb (PyStr.truthy s0)); [now intros [= <-]|].
  destruct (normalize_workdir (sw_workdir args)) as [workdir|[]];
    try discriminate; [|now intros [= <-]].
  destruct (expand_resolve h s0) as [vault_path|]; [|discriminate].
  simpl.
  destruct (PyStr.truthy workdir && negb _ && _); [now intros [= <-]|].
  destruct (path_exists h _ && _); [now intros [= <-]|].
  intros [= <-]. simpl. intros [= <-]. eexists. left. reflexivity.
Qed.

End CommandFrames.



(** X13: no command touches a key of the document other than [vaults] and
    [active]: [schema_version] and whatever else the file held are saved as
    they were loaded. *)
Theorem registry_commands_keep_other_keys
    (h : host) (py_str : Json.json -> string) (registry : Json.dict)
    (k : string) :
  k <> "vaults"%string -> k <> "active"%string ->
  (forall now args o r',
     Registry.cmd_add h registry now args = Ok o ->
     Registry.saved o = Some r' ->
     Json.dict_find k r' = Json.dict_find k registry)
  /\ (forall name r',
        Registry.saved (Registry.cmd_remove registry name) = Some r' ->
        Json.dict_find k r' = Json.dict_find k registry)
  /\ (forall name r',
        Registry.saved (Registry.cmd_set_active registry name) = Some r' ->
        Json.dict_find k r' = Json.dict_find k registry)
  /\ (forall now args o r',
        Registry.cmd_set_workdir h registry now args = Ok o ->
        Registry.saved o = Some r' ->
        Json.dict_find k r' = Json.dict_find k registry)
  /\ (forall clock found args r',
        Registry.saved
          (Discovery.cmd_discover_merge h py_str registry clock found args)
        = Some r' ->
        Json.dict_find k r' = Json.dict_find k registry).
Proof.
  intros Hv Ha. repeat split.
  - intros now args o r' Ho Hs.
    apply rewritten_other_keys; [|exact Hv|exact Ha].
    exact (cmd_add_rewrites h registry now args o r' Ho Hs).
  - intros name r' Hs.
    apply rewritten_other_keys; [|exact Hv|exact Ha].
    exact (cmd_remove_rewrites registry name r' Hs).
  - intros name r' Hs.
    apply rewritten_other_keys; [|exact Hv|exact Ha].
    exact (cmd_set_active_rewrites registry name r' Hs).
  - intros now args o r' Ho Hs.
    apply rewritten_other_keys; [|exact Hv|exact Ha].
    exact (cmd_set_workdir_rewrites h registry now args o r' Ho Hs).
  - intros clock found args r'.
    destruct (cmd_discover_merge_saved h py_str registry clock found args)
      as (vaults & diag & ->).
    simpl. intros [= <-]. rewrite dict_find_set.
    destruct (String.eqb_spec "vaults" k) as [E|_]; [now symmetry in E|reflexivity].
Qed.

Lemma registry_commands_keep_other_keys_witness :
  ("note"%string <> "vaults"%string /\ "note"%string <> "active"%string)
  /\ exists r',
       Registry.saved (Registry.cmd_set_active Sample.good_doc "w") = Some r'
       /\ Json.dict_find "note" r' = Some (Json.JStr "kept").
Proof.
  split; [split; discriminate|].
  eexists. split; [reflexivity|].
  apply (proj1 (proj2 (proj2 (registry_commands_keep_other_keys Sample.bare
                                Sample.py_str Sample.good_doc "note"
                                ltac:(discriminate) ltac:(discriminate))))
           "w" _ eq_refl).
Defined.

(** * Further properties of discovery *)

Section ExtractFacts.
Import Json Registry Discovery.

Lemma entry_of_item_sound (item name path : json) :
  In (Ok (name, path)) (entry_of_item item) ->
  truthy path = true
  /\ (truthy name = true
      \/ exists p, path = JStr p /\ name = JStr (PosixPath.path_name p)).
Proof.
  destruct item as [| | | | | |value]; try (intros []).
  unfold entry_of_item.
  destruct (truthy (dict_get "path" value)) eqn:Tp; [|intros []].
  destruct (truthy (or_else _ _)) eqn:Tn.
  - intros [[= <- <-]|[]]. split; [exact Tp|now left].
  - destruct (dict_get "path" value) eqn:P; intros [H|[]]; try discriminate H.
    injection H as <- <-. split; [exact Tp|right]. now eexists.
Qed.

Lemma flat_map_entries_sound (items : list json) (name path : json) :
  In (Ok (name, path)) (flat_map entry_of_item items) ->
  truthy path = true
  /\ (truthy name = true
      \/ exists p, path = JStr p /\ name = JStr (PosixPath.path_name p)).
Proof.
  intros Hin. apply in_flat_map in Hin. destruct Hin as (item & _ & Hin).
  now apply (entry_of_item_sound item).
Qed.

End ExtractFacts.

(** X14: whatever the document, [extract_vault_entries] never yields an
    entry without a path: the path of every yielded pair is a true value,
    and its name is either a true value taken from [name] or [label], or the
    last segment of the path; a document that is neither an object nor a
    list yields nothing. *)
Theorem extract_vault_entries_have_paths (data : Json.json) :
  (forall name path,
     In (Ok (name, path)) (Discovery.extract_vault_entries data) ->
     Json.truthy path = true
     /\ (Json.truthy name = true
         \/ exists p,
              path = Json.JStr p /\ name = Json.JStr (PosixPath.path_name p)))
  /\ (Json.is_dict data = false ->
      (forall items, data <> Json.JList items) ->
      Discovery.extract_vault_entries data = []).
Proof.
  split.
  - intros name path. unfold Discovery.extract_vault_entries.
    destruct data as [| | | | |items|d]; try (intros []).
    + apply flat_map_entries_sound.
    + destruct (Json.dict_get "vaults" d) as [| | | | |items|vd];
        try (intros []); try apply flat_map_entries_sound.
      destruct (Json.truthy _ && _); [|intros []].
      apply flat_map_entries_sound.
  - intros Hd Hl. destruct data; try reflexivity; try discriminate Hd.
    now destruct (Hl items).
Qed.

Lemma extract_vault_entries_have_paths_witness :
  Json.is_dict (Json.JStr "vaults") = false
  /\ Discovery.extract_vault_entries (Json.JStr "vaults") = [].
Proof.
  split; [reflexivity|].
  apply (proj2 (extract_vault_entries_have_paths (Json.JStr "vaults")));
    [reflexivity|discriminate].
Defined.

(** X15: what [discover_vaults] returns, from any candidate files, has
    pairwise different paths, and the source of every entry is one of the
    candidate files. *)
Theorem discover_returns_distinct_paths
    (h : host) (files : list string)
    (found : list (Registry.entry Json.json)) :
  Discovery.discover_in h files = Ok found ->
  NoDup (map Registry.e_path found)
  /\ forall e, In e found -> In (Registry.e_source e) files.
Proof.
  apply discover_in_distinct.
Qed.

Lemma discover_returns_distinct_paths_witness :
  exists found,
    Discovery.discover_in Sample.detour_host
      ["/etc/obsidian.json"; Sample.config_file]%string = Ok found
    /\ NoDup (map Registry.e_path found)
    /\ forall e, In e found ->
         In (Registry.e_source e) ["/etc/obsidian.json"; Sample.config_file]%string.
Proof.
  eexists. split; [reflexivity|].
  apply (discover_returns_distinct_paths Sample.detour_host
           ["/etc/obsidian.json"; Sample.config_file]%string).
  reflexivity.
Defined.

Section FirstWins.
Import Json Registry Discovery.
Variable h : host.

Lemma keep_first_app (es1 es2 : list (entry json)) (seen : list string) :
  keep_first (es1 ++ es2) seen
  = keep_first es1 seen ++ keep_first es2 (seen_after es1 seen).
Proof.
  revert seen. induction es1 as [|e r IH]; intros seen; [reflexivity|].
  simpl. unfold seen_after. simpl. destruct (PyStr.mem (e_path e) seen).
  - apply IH.
  - simpl. rewrite IH. unfold seen_after.
    now rewrite <- app_assoc.
Qed.

Lemma seen_after_app (es1 es2 : list (entry json)) (seen : list string) :
  seen_after (es1 ++ es2) seen = seen_after es2 (seen_after es1 seen).
Proof.
  unfold seen_after at 1 2. rewrite keep_first_app, map_app, rev_app_distr.
  now rewrite <- app_assoc.
Qed.

Lemma scan_entries_collect (source : string)
    (yielded : list (res (json * json)))
    (results : list (entry json)) (seen : list string) :
  scan_entries h source yielded (results, seen)
  = es <- collect_entries h source yielded ;;
    Ok (results ++ keep_first es seen, seen_after es seen).
Proof.
  revert results seen.
  induction yielded as [|[[name vault_path]|e] rest IH]; intros results seen;
    simpl; [now rewrite app_nil_r|  |reflexivity].
  destruct vault_path; try reflexivity.
  destruct (PosixPath.expanduser (home_of h) s) as [resolved|]; [|reflexivity].
  simpl. destruct (PyStr.mem resolved seen) eqn:M; rewrite IH;
    destruct (collect_entries h source rest) as [es|]; simpl; try reflexivity.
  - unfold seen_after. simpl. now rewrite M.
  - unfold seen_after. simpl. rewrite M. simpl.
    now rewrite <- !app_assoc.
Qed.

Lemma scan_files_collect (files : list string)
    (results : list (entry json)) (seen : list string) :
  scan_files h files (results, seen)
  = es <- collect_files h files ;;
    Ok (results ++ keep_first es seen, seen_after es seen).
Proof.
  revert results seen.
  induction files as [|path rest IH]; intros results seen; simpl;
    [now rewrite app_nil_r|].
  destruct (negb (path_exists h path)); [apply IH|].
  destruct (read_text h path) as [text|e];
    [|destruct (is_os_or_json_error e); [apply IH|reflexivity]].
  destruct (json_loads h text) as [data|e];
    [|destruct (is_os_or_json_error e); [apply IH|reflexivity]].
  rewrite scan_entries_collect.
  destruct (collect_entries h path (extract_vault_entries data)) as [es|];
    [|reflexivity].
  simpl. rewrite IH. destruct (collect_files h rest) as [es'|]; [|reflexivity].
  simpl. now rewrite keep_first_app, seen_after_app, app_assoc.
Qed.

End FirstWins.

(** X16: [discover_vaults] is a collection followed by a selection: it
    returns, in order, the entries of all usable candidate files, each with
    its expanded path and its file as source, keeping of the entries with
    one path the first only (so earlier files take priority); it raises
    exactly when the collection does. *)
Theorem discover_keeps_first_of_each_path (h : host) (files : list string) :
  Discovery.discover_in h files
  = es <- Discovery.collect_files h files ;; Ok (Discovery.keep_first es []).
Proof.
  unfold Discovery.discover_in. rewrite scan_files_collect.
  now destruct (Discovery.collect_files h files).
Qed.

Section UnusableFiles.
Import Json Registry Discovery.
Variable h : host.




End UnusableFiles.



(** X18: after a merge, forced or not, every discovered name is registered,
    and every name that was registered still is: a merge never drops a
    vault. *)
Theorem merge_registers_and_keeps_names
    (h : host) (py_str : Json.json -> string) (force : bool)
    (found : list (Registry.entry string)) (vaults : Json.dict)
    (clock : nat) (diag : list string) :
  (forall e,
     In e found ->
     Json.dict_mem (Registry.e_name e)
       (fst (fst (Discovery.merge h py_str force found (vaults, clock, diag))))
     = true)
  /\ (forall k,
        Json.dict_mem k vaults = true ->
        Json.dict_mem k
          (fst (fst (Discovery.merge h py_str force found (vaults, clock, diag))))
        = true).
Proof.
  split.
  - intros e He. now apply merge_registers.
  - intros k Hk. now apply merge_keeps_keys.
Qed.

Lemma merge_registers_and_keeps_names_witness :
  Json.dict_mem "work" Sample.vaults = true
  /\ Json.dict_mem "work"
       (fst (fst (Discovery.merge Sample.bare Sample.py_str true Sample.found
                    (Sample.vaults, 0, [])))) = true.
Proof.
  split; [reflexivity|].
  apply (proj2 (merge_registers_and_keeps_names Sample.bare Sample.py_str true
                  Sample.found Sample.vaults 0 [])).
  reflexivity.
Defined.


(** X19: which of several discovered entries with one name is stored.
    Without [--force], for a name that was not registered, it is the first:
    its path and source, an empty working directory.  With [--force] it is
    the last: its path and source, over whatever was there. *)
Theorem merge_stores_first_or_last
    (h : host) (py_str : Json.json -> string)
    (before after : list (Registry.entry string)) (e : Registry.entry string)
    (vaults : Json.dict) (clock : nat) (diag : list string) :
  ((forall e', In e' before -> Registry.e_name e' <> Registry.e_name e) ->
   Json.dict_mem (Registry.e_name e) vaults = false ->
   exists t,
     Json.dict_find (Registry.e_name e)
       (fst (fst (Discovery.merge h py_str false (before ++ e :: after)
                    (vaults, clock, diag))))
     = Some (Registry.vault_record (Registry.e_path e) ""
               (Registry.e_source e) (utc_now_iso_z h t)))
  /\ ((forall e', In e' after -> Registry.e_name e' <> Registry.e_name e) ->
      exists workdir t,
        Json.dict_find (Registry.e_name e)
          (fst (fst (Discovery.merge h py_str true (before ++ e :: after)
                       (vaults, clock, diag))))
        = Some (Registry.vault_record (Registry.e_path e) workdir
                  (Registry.e_source e) (utc_now_iso_z h t))).
Proof.
  split.
  - intros Hb Hnew.
    rewrite merge_app.
    destruct (Discovery.merge h py_str false before (vaults, clock, diag))
      as [[v1 c1] d1] eqn:M1.
    assert (F1 : Json.dict_mem (Registry.e_name e) v1 = false).
    { rewrite dict_mem_find.
      change v1 with (fst (fst (v1, c1, d1))). rewrite <- M1.
      rewrite merge_other_names by exact Hb. simpl.
      rewrite dict_mem_find in Hnew.
      now destruct (Json.dict_find (Registry.e_name e) vaults). }
    exists c1. rewrite merge_cons.
    rewrite merge_step_write by now rewrite F1.
    rewrite merge_keeps_records; simpl.
    + rewrite dict_find_set_same. now rewrite existing_workdir_new.
    + now rewrite dict_mem_set, String.eqb_refl.
  - intros Ha.
    rewrite merge_app.
    destruct (Discovery.merge h py_str true before (vaults, clock, diag))
      as [[v1 c1] d1].
    exists (Discovery.existing_workdir py_str (Registry.e_name e) v1), c1.
    rewrite merge_cons.
    rewrite merge_step_write by apply andb_false_r.
    rewrite merge_other_names by exact Ha. simpl.
    apply dict_find_set_same.
Qed.

Lemma merge_stores_first_or_last_witness :
  Json.dict_mem "notes" Sample.vaults = false
  /\ exists t,
       Json.dict_find "notes"
         (fst (fst (Discovery.merge Sample.bare Sample.py_str false
                      ([] ++ {| Registry.e_name := "notes";
                                Registry.e_path := "/home/u/notes";
                                Registry.e_source := "a.json" |}
                          :: [ {| Registry.e_name := "notes";
                                  Registry.e_path := "/mnt/notes";
                                  Registry.e_source := "b.json" |} ])
                      (Sample.vaults, 0, []))))
       = Some (Registry.vault_record "/home/u/notes" "" "a.json" (Sample.stamp t)).
Proof.
  split; [reflexivity|].
  apply (proj1 (merge_stores_first_or_last Sample.bare Sample.py_str []
                  [ {| Registry.e_name := "notes";
                       Registry.e_path := "/mnt/notes";
                       Registry.e_source := "b.json" |} ]
                  {| Registry.e_name := "notes";
                     Registry.e_path := "/home/u/notes";
                     Registry.e_source := "a.json" |}
                  Sample.vaults 0 []));
    [intros e' []|reflexivity].
Defined.

(** * Properties of the entry point and of discovery through the tool *)

Section EntryPointFacts.
Import Json CliTools.
Variable h : host.



End EntryPointFacts.





Section VaultListing.
Import CliTools.

(** What makes a pair an entry of the listing. *)
Let entry_like (key : string * string) : Prop :=
  PyStr.truthy (fst key) = true
  /\ PyStr.truthy (snd key) = true
  /\ (contains "/" (snd key) || PyStr.startswith (snd key) "."
      || PyStr.startswith (snd key) "~") = true.

Lemma parse_vault_line_sound (line : string) (key : string * string) :
  parse_vault_line line = Some key -> entry_like key.
Proof.
  unfold parse_vault_line.
  destruct (PyStr.startswith (lower line) "name" && _); [discriminate|].
  match goal with
  | |- match ?fields with _ => _ end = _ -> _ =>
      destruct fields as [[name path]|]; [|discriminate]
  end.
  destruct (PyStr.truthy name) eqn:Tn; [|discriminate].
  destruct (PyStr.truthy path) eqn:Tp; [|discriminate].
  cbn [negb orb].
  destruct (contains "/" path) eqn:C; cbn [negb andb].
  - intros [= <-]. repeat split; assumption || (simpl; now rewrite C).
  - destruct (PyStr.startswith path ".") eqn:D; cbn [negb andb].
    + intros [= <-]. repeat split; try assumption. simpl. now rewrite C, D.
    + destruct (PyStr.startswith path "~") eqn:H; cbn [negb]; [|discriminate].
      intros [= <-]. repeat split; try assumption. simpl. now rewrite C, D, H.
Qed.

Lemma pair_mem_In (key : string * string) (seen : list (string * string)) :
  pair_mem key seen = true <-> In key seen.
Proof.
  unfold pair_mem. rewrite existsb_exists. split.
  - intros ([a b] & Hin & E). apply andb_prop in E. destruct E as [E1 E2].
    apply String.eqb_eq in E1, E2. simpl in E1, E2. destruct key. simpl in *.
    now subst.
  - intros Hin. exists key. split; [exact Hin|].
    now rewrite !String.eqb_refl.
Qed.

Lemma parse_vault_lines_inv (lines : list string)
    (entries seen : list (string * string)) :
  NoDup entries -> (forall k, In k seen <-> In k entries) ->
  Forall entry_like entries ->
  NoDup (parse_vault_lines lines entries seen)
  /\ Forall entry_like (parse_vault_lines lines entries seen).
Proof.
  revert entries seen.
  induction lines as [|line rest IH]; intros entries seen Hnd Hseen Hall; simpl;
    [now split|].
  destruct (parse_vault_line line) as [key|] eqn:L; [|now apply IH].
  destruct (pair_mem key seen) eqn:M; [now apply IH|].
  assert (Hnew : ~ In key entries).
  { intros Hin. apply Hseen in Hin. apply pair_mem_In in Hin. congruence. }
  apply IH.
  - apply NoDup_app; [exact Hnd|repeat constructor; auto|].
    intros a Ha [<-|[]]. contradiction.
  - intros k. simpl. rewrite in_app_iff, Hseen. simpl. tauto.
  - apply Forall_app. split; [exact Hall|].
    constructor; [|constructor]. now apply (parse_vault_line_sound line).
Qed.

Lemma parse_vaults_text_inv (text : string) :
  NoDup (_parse_vaults_text text) /\ Forall entry_like (_parse_vaults_text text).
Proof.
  unfold _parse_vaults_text. apply parse_vault_lines_inv.
  - constructor.
  - tauto.
  - constructor.
Qed.

End VaultListing.

(** X23: whatever the text, [_parse_vaults_text] returns no pair twice, and
    every pair it returns has a name that is not empty and a path that is
    not empty and either contains a slash or starts with a dot or a
    tilde. *)
Theorem parse_vaults_text_entries (text : string) :
  NoDup (CliTools._parse_vaults_text text)
  /\ forall name path,
       In (name, path) (CliTools._parse_vaults_text text) ->
       PyStr.truthy name = true
       /\ PyStr.truthy path = true
       /\ (CliTools.contains "/" path || PyStr.startswith path "."
           || PyStr.startswith path "~") = true.
Proof.
  destruct (parse_vaults_text_inv text) as [Hnd Hall].
  split; [exact Hnd|]. intros name path Hin.
  rewrite Forall_forall in Hall. exact (Hall (name, path) Hin).
Qed.

(** * Properties of the listing and of the skill name *)

Section SortedFacts.
Import RegistryViews.

Let le (a b : string) : Prop := String.leb a b = true.

Lemma insert_sorted_perm (x : string) (l : list string) :
  Permutation (insert_sorted x l) (x :: l).
Proof.
  induction l as [|y r IH]; simpl; [reflexivity|].
  destruct (String.leb x y); [reflexivity|].
  rewrite IH. apply perm_swap.
Qed.

Lemma sorted_perm (l : list string) : Permutation (sorted l) l.
Proof.
  induction l as [|x r IH]; simpl; [reflexivity|].
  rewrite insert_sorted_perm. now constructor.
Qed.

Lemma insert_sorted_hd (x a : string) (l : list string) :
  le a x -> HdRel le a l -> HdRel le a (insert_sorted x l).
Proof.
  intros Hax Hal. destruct l as [|y r]; simpl; [now constructor|].
  destruct (String.leb x y); constructor; [exact Hax|].
  now inversion Hal.
Qed.

Lemma insert_sorted_Sorted (x : string) (l : list string) :
  Sorted le l -> Sorted le (insert_sorted x l).
Proof.
  induction 1 as [|y r Hr IH Hhd]; simpl; [repeat constructor|].
  destruct (String.leb x y) eqn:E.
  - constructor; [now constructor|]. now constructor.
  - constructor; [exact IH|]. apply insert_sorted_hd; [|exact Hhd].
    destruct (String.leb_total x y) as [H|H]; [congruence|exact H].
Qed.

Lemma sorted_Sorted (l : list string) : Sorted le (sorted l).
Proof.
  induction l as [|x r IH]; simpl; [constructor|].
  now apply insert_sorted_Sorted.
Qed.

End SortedFacts.

(** X24: the listing of a registry that is not empty has exactly one row
    for each registered name, in ascending code point order of the names;
    the marker of a row is the star when its name is the active one and a
    blank otherwise. *)
Theorem cmd_list_rows_sorted (registry : Json.dict) :
  Registry.vaults_of registry <> [] ->
  exists rows,
    RegistryViews.cmd_list registry false = RegistryViews.Rows rows
    /\ Permutation (map RegistryViews.r_name rows)
         (Json.dict_keys (Registry.vaults_of registry))
    /\ Sorted (fun a b => String.leb a b = true)
         (map RegistryViews.r_name rows)
    /\ forall r,
         In r rows ->
         RegistryViews.r_marker r
         = if Discovery.equals_str
                (Json.dict_get_default "active" (Json.JStr "") registry)
                (RegistryViews.r_name r)
           then "*"%string else " "%string.
Proof.
  intros Hne. unfold RegistryViews.cmd_list.
  destruct (Registry.vaults_of registry) as [|kv rest] eqn:V; [contradiction|].
  eexists. split; [reflexivity|].
  assert (Hnames : forall l a v,
            map RegistryViews.r_name (map (RegistryViews.row_of v a) l) = l).
  { intros l a v. rewrite map_map. simpl. apply map_id. }
  rewrite Hnames. split; [apply sorted_perm|]. split; [apply sorted_Sorted|].
  intros r Hr. apply in_map_iff in Hr. now destruct Hr as (name & <- & _).
Qed.

Lemma cmd_list_rows_sorted_witness :
  Registry.vaults_of Sample.registry <> []
  /\ exists rows,
       RegistryViews.cmd_list Sample.registry false = RegistryViews.Rows rows
       /\ map RegistryViews.r_name rows = ["home"; "work"]%string
       /\ map RegistryViews.r_marker rows = [" "; "*"]%string.
Proof.
  split; [discriminate|].
  destruct (cmd_list_rows_sorted Sample.registry ltac:(discriminate))
    as (rows & E & _).
  exists rows. split; [exact E|].
  injection E as <-. split; reflexivity.
Defined.

Section FrontMatter.
Import RegistryViews.

Lemma drop_while_keeps_last (p : ascii -> bool) (l : list ascii) (c : ascii) :
  p c = false -> exists l', PyStr.drop_while p (l ++ [c]) = l' ++ [c].
Proof.
  intros Hc. induction l as [|a r IH]; simpl.
  - rewrite Hc. now exists [].
  - destruct (p a); [exact IH|]. now exists (a :: r).
Qed.

(** Stripping keeps a first character that is not white space. *)
Lemma strip_keeps_first (c : ascii) (rest : string) :
  PyStr.is_space c = false ->
  exists rest', PyStr.strip (String c rest) = String c rest'.
Proof.
  intros Hc.
  unfold PyStr.strip, PyStr.strip_l, PyStr.lstrip_l, PyStr.rstrip_l, PyStr.chars.
  simpl. rewrite Hc. simpl.
  destruct (drop_while_keeps_last PyStr.is_space
              (rev (list_ascii_of_string rest)) c Hc) as (l' & ->).
  rewrite rev_app_distr. simpl. now eexists.
Qed.

Lemma name_line_is_no_fence (line : string) :
  PyStr.startswith line "name:" = true ->
  String.eqb (PyStr.strip line) "---" = false.
Proof.
  unfold PyStr.startswith. destruct line as [|c rest]; [discriminate|].
  intros H.
  assert (Hc : c = "n"%char).
  { destruct c as [[] [] [] [] [] [] [] []]; try discriminate H. reflexivity. }
  subst c. destruct (strip_keeps_first "n"%char rest eq_refl) as (rest' & ->).
  reflexivity.
Qed.

(** Lines that neither close the front matter nor name the skill. *)
Let passed (line : string) : Prop :=
  String.eqb (PyStr.strip line) "---" = false
  /\ PyStr.startswith line "name:" = false.

Lemma scan_front_matter_passes (front rest : list string) :
  Forall passed front ->
  scan_front_matter (front ++ rest) = scan_front_matter rest.
Proof.
  induction 1 as [|line r [H1 H2] _ IH]; [reflexivity|].
  simpl. now rewrite H1, H2.
Qed.

Lemma scan_front_matter_scoped (front body : list string) (closing line : string) :
  Forall passed front ->
  (String.eqb (PyStr.strip closing) "---" = true ->
   scan_front_matter (front ++ closing :: body) = None)
  /\ (PyStr.startswith line "name:" = true ->
      scan_front_matter (front ++ line :: body)
      = Some (PyStr.strip (snd (CliTools.split_once ":"%char line)))).
Proof.
  intros Hfront. split; intros H; rewrite scan_front_matter_passes by exact Hfront;
    simpl.
  - now rewrite H.
  - now rewrite (name_line_is_no_fence line H), H.
Qed.

End FrontMatter.

(** X25: the skill name is read from the front matter only.  Past lines that
    neither are the fence [---] nor start with [name:], the scan stops with
    nothing at the closing fence, whatever follows it, and answers with the
    stripped text after the first colon of the first line that starts with
    [name:]. *)
Theorem skill_name_comes_from_front_matter
    (front body : list string) (closing line : string) :
  (forall l,
     In l front ->
     String.eqb (PyStr.strip l) "---" = false
     /\ PyStr.startswith l "name:" = false) ->
  (String.eqb (PyStr.strip closing) "---" = true ->
   RegistryViews.scan_front_matter (front ++ closing :: body) = None)
  /\ (PyStr.startswith line "name:" = true ->
      RegistryViews.scan_front_matter (front ++ line :: body)
      = Some (PyStr.strip (snd (CliTools.split_once ":"%char line)))).
Proof.
  intros Hfront. apply scan_front_matter_scoped.
  apply Forall_forall. exact Hfront.
Qed.

Lemma skill_name_comes_from_front_matter_witness :
  (String.eqb (PyStr.strip " --- ") "---" = true
   /\ PyStr.startswith "name: obsidian " "name:" = true)
  /\ RegistryViews.scan_front_matter
       (Sample.md_front ++ " --- "%string :: ["name: late"%string]) = None
  /\ RegistryViews.scan_front_matter
       (Sample.md_front ++ "name: obsidian "%string
          :: ["---"%string; "name: late"%string])
     = Some "obsidian"%string.
Proof.
  split; [split; reflexivity|].
  assert (Hfront : forall l,
            In l Sample.md_front ->
            String.eqb (PyStr.strip l) "---" = false
            /\ PyStr.startswith l "name:" = false).
  { intros l [<-|[]]. split; reflexivity. }
  split.
  - apply (proj1 (skill_name_comes_from_front_matter
                    Sample.md_front ["name: late"%string]
                    " --- " "" Hfront)).
    reflexivity.
  - apply (proj2 (skill_name_comes_from_front_matter
                    Sample.md_front ["---"%string; "name: late"%string]
                    "" "name: obsidian " Hfront)).
    reflexivity.
Defined.
